(** * Cobalt prototype scripts: a shallow embedding and its properties

    The repository is a set of Python scripts around the Cobalt
    randomization prototype:

    - [randomizers/help_query_randomizer.py]   (module [HelpQuery])
    - [prototype/randomizers/module_name_randomizer.py] (module [ModuleName])
    - [config/config_parser/test_stable_config_parser.py] (module [StableConfigParser])
    - [tools/container_util.py]                (module [ContainerUtil])
    - [tools/demo/generate_viz.py]             (module [GenerateViz])

    The RAPPOR encoder, the Bloom-filter mapper and the configuration
    constructor are described by the specification only; they are modelled
    in [Rappor] and [Config] from its words.

    Python code is embedded as functions in a state-and-exception monad:
    a computation takes the state of the world it acts on (an output file,
    the log of started processes, ...) and returns either a value or the
    raised exception, together with the state it leaves behind. *)

From Stdlib Require Import Ascii String QArith Qminmax Floats.
From stdpp Require Import gmap strings list.

Local Open Scope Z_scope.
Local Open Scope nat_scope.
Local Open Scope string_scope.
Local Open Scope list_scope.

(** ** Python values, exceptions and the execution monad *)

Module Py.

(** Exceptions: the built-in ones the scripts can raise, and the three
    error kinds of the specification's taxonomy. *)
Inductive exn : Type :=
| AttributeError (attr : string)
| NameError (name : string)
| IndexError
| ValueError
| ImportError
| OSError
| IOError
| CalledProcessError (returncode : Z) (output : string)
| Exception (msg : string)
| InvalidConfig
| InvalidFieldIndex
| SinkWriteFailed.

Inductive result (A : Type) : Type :=
| Returned (a : A)
| Raised (e : exn).
Arguments Returned {A} a.
Arguments Raised {A} e.

(** A computation over a world of type [W]. The world survives an
    exception: what was written before the [raise] stays written. *)
Definition py (W A : Type) : Type := W -> result A * W.

Definition ret {W A} (a : A) : py W A := fun w => (Returned a, w).

Definition raise {W A} (e : exn) : py W A := fun w => (Raised e, w).

Definition bind {W A B} (c : py W A) (k : A -> py W B) : py W B :=
  fun w =>
    match c w with
    | (Returned a, w') => k a w'
    | (Raised e, w') => (Raised e, w')
    end.

Declare Scope py_scope.
Delimit Scope py_scope with py.
Notation "x <- c ;; k" := (bind c (fun x => k))
  (at level 100, c at next level, right associativity) : py_scope.
Notation "c ;; k" := (bind c (fun _ => k))
  (at level 100, right associativity) : py_scope.

Local Open Scope py_scope.

(** [for x in xs: body(x)] *)
Fixpoint for_each {W A} (xs : list A) (body : A -> py W unit) : py W unit :=
  match xs with
  | [] => ret tt
  | x :: rest => body x ;; for_each rest body
  end.

(** An [Entry] is a named tuple (utils/data.py is not part of the
    sources): an ordered sequence of named fields, read by attribute name
    or by position. The fields the scripts read hold strings. *)
Abbreviation Entry := (list (string * string)) (only parsing).

Fixpoint field (name : string) (obj : Entry) : option string :=
  match obj with
  | [] => None
  | (n, v) :: rest => if String.eqb n name then Some v else field name rest
  end.

(** [obj.name] *)
Definition getattr {W} (obj : Entry) (name : string) : py W string :=
  match field name obj with
  | Some v => ret v
  | None => raise (AttributeError name)
  end.

End Py.

Import Py.
Local Open Scope py_scope.

(** ** randomizers/help_query_randomizer.py *)

Module HelpQuery.

(** A csv row as handed to [csv.writer.writerow]. *)
Definition Row : Type := list string.

(** The world of [randomize]: the rows written so far to the stream that
    [file_util.openForRandomizerWriting] returned. *)
Definition csv_file : Type := list Row.

(** [writer.writerow(row)] *)
Definition writerow (row : Row) : py csv_file unit :=
  fun f => (Returned tt, f ++ [row]).

(** [HelpQueryRandomizer.randomize(self, entries)]:
<<
      writer = csv.writer(f)
      for entry in entries:
        writer.writerow([entry.help_query])
>> *)
Definition randomize (entries : list Entry) : py csv_file unit :=
  for_each entries (fun entry =>
    q <- getattr entry "help_query" ;;
    writerow [q]).

(** An entry as the callers build them: it has a help query. *)
Definition is_entry (e : Entry) : Prop := is_Some (field "help_query" e).

#[global] Instance is_entry_dec (e : Entry) : Decision (is_entry e).
Proof. unfold is_entry. apply _. Defined.

(** The cells of the row the loop body hands to the writer for [e]. *)
Definition row_of (e : Entry) : Row :=
  match field "help_query" e with
  | Some q => [q]
  | None => []
  end.

End HelpQuery.

(** ** prototype/randomizers/module_name_randomizer.py *)

Module ModuleName.

Section Collaborators.

(** The constants of [utils/file_util.py] the method chooses between. *)
Variables RAPPOR_MODULE_NAME_PR_CONFIG RAPPOR_MODULE_NAME_CONFIG : string.
Variables MODULE_NAME_PR_RANDOMIZER_OUTPUT_FILE_NAME
          MODULE_NAME_RANDOMIZER_OUTPUT_FILE_NAME : string.

(** [randomizer.randomizeUsingRappor(entries, param_configs, output_file)]:
    the callee, over whatever world it acts on. A parameter configuration
    is the triple (field index, use bloom filters, config file). *)
Variable W : Type.
Variable randomizeUsingRappor :
  list Entry -> list (nat * bool * string) -> string -> py W unit.

(** [ModuleNameRandomizer.randomize(self, entries, for_private_release=False)];
    [None] stands for the argument left out at the call. *)
Definition randomize (entries : list Entry) (for_private_release : option bool)
  : py W unit :=
  let for_private_release := default false for_private_release in
  let config_file :=
    if for_private_release then RAPPOR_MODULE_NAME_PR_CONFIG
    else RAPPOR_MODULE_NAME_CONFIG in
  let output_file :=
    if for_private_release then MODULE_NAME_PR_RANDOMIZER_OUTPUT_FILE_NAME
    else MODULE_NAME_RANDOMIZER_OUTPUT_FILE_NAME in
  randomizeUsingRappor entries [(1, true, config_file)] output_file.

End Collaborators.

End ModuleName.

(** ** config/config_parser/test_stable_config_parser.py *)

Module StableConfigParser.

(** How one attempt to run a command ends: the process could not be
    started, or it exited with a return code after writing [output]. *)
Inductive process : Type :=
| NotStarted
| Exited (returncode : Z) (output : string).

(** The world of the test: the commands handed to [subprocess] so far and
    the lines printed. *)
Record world : Type := World {
  invoked : list (list string);
  printed : list string
}.

Section Test.

(** Paths computed at import time from [__file__]. *)
Variables CONFIG_PARSER_BIN CONFIG_DIR : string.

(** The operating system: what the [n]-th command started in this run
    does. Two runs of one command may differ; that is what is tested. *)
Variable os_run : nat -> list string -> process.

(** [subprocess.check_output(cmd)] *)
Definition check_output (cmd : list string) : py world string :=
  fun w =>
    let w' := World (invoked w ++ [cmd]) (printed w) in
    match os_run (length (invoked w)) cmd with
    | NotStarted => (Raised OSError, w')
    | Exited rc out =>
        if Z.eqb rc 0 then (Returned out, w')
        else (Raised (CalledProcessError rc out), w')
    end.

Definition print (line : string) : py world unit :=
  fun w => (Returned tt, World (invoked w) (printed w ++ [line])).

Definition cmd : list string :=
  [CONFIG_PARSER_BIN; "-config_dir"; CONFIG_DIR; "-out_format"; "b64"].

Definition different_outputs : exn :=
  Exception "Two calls to the config_parser yielded different outputs!".

(** [main()] *)
Definition main : py world Z :=
  out1 <- check_output cmd ;;
  out2 <- check_output cmd ;;
  (if negb (String.eqb out1 out2) then raise different_outputs else ret tt) ;;
  print "PASS" ;;
  ret 0%Z.

End Test.

End StableConfigParser.

(** ** tools/container_util.py *)

Module ContainerUtil.

(** The names bound in the module's global namespace once its body has
    run: the implicit module attributes, the imports, the constants (with
    [f], the variable of the module-level list comprehensions) and the
    functions, in source order. *)
Definition module_globals : list string :=
  [ "__name__"; "__doc__"; "__file__"; "__package__"; "__builtins__";
    "fileinput"; "os"; "shutil"; "subprocess"; "sys";
    "process_starter";
    "ANALYZER_PRIVATE_KEY_PEM_NAME"; "DEFAULT_ANALYZER_PRIVATE_KEY_PEM";
    "ANALYZER_SERVICE_PATH"; "DEFAULT_ANALYZER_SERVICE_PORT";
    "DEFAULT_REPORT_MASTER_PORT"; "DEFAULT_SHUFFLER_PORT";
    "REGISTERED_CONFIG_DIR"; "REPORT_MASTER_PATH"; "SHUFFLER_CONFIG_FILE";
    "SHUFFLER_PATH";
    "THIS_DIR"; "SRC_ROOT_DIR"; "OUT_DIR"; "SYS_ROOT_DIR";
    "CONTAINER_REGISTRY_URI"; "KUBE_SRC_DIR";
    "COBALT_COMMON_DOCKER_FILE"; "ANALYZER_SERVICE_DOCKER_FILE";
    "REPORT_MASTER_DOCKER_FILE"; "SHUFFLER_DOCKER_FILE";
    "ANALYZER_SERVICE_DEPLOYMENT_YAML";
    "ANALYZER_SERVICE_DEPLOYMENT_TEMPLATE_FILE";
    "REPORT_MASTER_DEPLOYMENT_YAML";
    "REPORT_MASTER_DEPLOYMENT_TEMPLATE_FILE";
    "SHUFFLER_DEPLOYMENT_YAML"; "SHUFFLER_DEPLOYMENT_TEMPLATE_FILE";
    "KUBE_OUT_DIR";
    "ANALYZER_SERVICE_DEPLOYMENT_FILE"; "REPORT_MASTER_DEPLOYMENT_FILE";
    "SHUFFLER_DEPLOYMENT_FILE";
    "COBALT_COMMON_DOCKER_BUILD_DIR"; "ANALYZER_SERVICE_DOCKER_BUILD_DIR";
    "REPORT_MASTER_DOCKER_BUILD_DIR"; "SHUFFLER_DOCKER_BUILD_DIR";
    "COBALT_COMMON_IMAGE_NAME"; "ANALYZER_SERVICE_IMAGE_NAME";
    "REPORT_MASTER_IMAGE_NAME"; "SHUFFLER_IMAGE_NAME";
    "COBALT_COMMON_SO_FILES"; "f"; "ROOTS_PEM"; "ANALYZER_CONFIG_FILES";
    "ANALYZER_PRIVATE_KEY_SECRET_NAME";
    "_ensure_dir"; "_set_contents_of_dir";
    "_build_cobalt_common_deploy_dir"; "_build_analyzer_service_deploy_dir";
    "_build_report_master_deploy_dir"; "_build_shuffler_deploy_dir";
    "_build_docker_image"; "build_all_docker_images";
    "_image_registry_uri"; "_push_to_container_registry";
    "push_analyzer_service_to_container_registry";
    "push_report_master_to_container_registry";
    "push_shuffler_to_container_registry";
    "_replace_tokens_in_template"; "_compound_project_name";
    "_create_secret_from_file"; "_delete_secret";
    "create_analyzer_private_key_secret";
    "delete_analyzer_private_key_secret";
    "_start_gke_service"; "start_analyzer_service"; "start_report_master";
    "start_shuffler"; "_stop_gke_service"; "stop_analyzer_service";
    "stop_report_master"; "stop_shuffler"; "authenticate"; "display";
    "main" ].

(** The names of Python 2.7's built-in namespace. *)
Definition builtins : list string :=
  [ "ArithmeticError"; "AssertionError"; "AttributeError"; "BaseException";
    "BufferError"; "BytesWarning"; "DeprecationWarning"; "EOFError";
    "Ellipsis"; "EnvironmentError"; "Exception"; "False";
    "FloatingPointError"; "FutureWarning"; "GeneratorExit"; "IOError";
    "ImportError"; "ImportWarning"; "IndentationError"; "IndexError";
    "KeyError"; "KeyboardInterrupt"; "LookupError"; "MemoryError";
    "NameError"; "None"; "NotImplemented"; "NotImplementedError"; "OSError";
    "OverflowError"; "PendingDeprecationWarning"; "ReferenceError";
    "RuntimeError"; "RuntimeWarning"; "StandardError"; "StopIteration";
    "SyntaxError"; "SyntaxWarning"; "SystemError"; "SystemExit"; "TabError";
    "True"; "TypeError"; "UnboundLocalError"; "UnicodeDecodeError";
    "UnicodeEncodeError"; "UnicodeError"; "UnicodeTranslateError";
    "UnicodeWarning"; "UserWarning"; "ValueError"; "Warning";
    "ZeroDivisionError"; "__debug__"; "__doc__"; "__import__"; "__name__";
    "__package__"; "abs"; "all"; "any"; "apply"; "basestring"; "bin";
    "bool"; "buffer"; "bytearray"; "bytes"; "callable"; "chr";
    "classmethod"; "cmp"; "coerce"; "compile"; "complex"; "copyright";
    "credits"; "delattr"; "dict"; "dir"; "divmod"; "enumerate"; "eval";
    "execfile"; "exit"; "file"; "filter"; "float"; "format"; "frozenset";
    "getattr"; "globals"; "hasattr"; "hash"; "help"; "hex"; "id"; "input";
    "int"; "intern"; "isinstance"; "issubclass"; "iter"; "len"; "license";
    "list"; "locals"; "long"; "map"; "max"; "memoryview"; "min"; "next";
    "object"; "oct"; "open"; "ord"; "pow"; "print"; "property"; "quit";
    "range"; "raw_input"; "reduce"; "reload"; "repr"; "reversed"; "round";
    "set"; "setattr"; "slice"; "sorted"; "staticmethod"; "str"; "sum";
    "super"; "tuple"; "type"; "unichr"; "unicode"; "vars"; "xrange";
    "zip" ].

Section Interpreter.

(** The world the library acts on (directories, docker, kubectl, gcloud)
    and what calling a bound name with arguments does: neither matters to
    [main]. *)
Variable W : Type.
Variable call : string -> list string -> py W unit.

(** Reading a global name: the module's globals first, then the
    built-ins; a name bound in neither raises [NameError]. *)
Definition load_global (name : string) : py W string :=
  if bool_decide (name ∈ module_globals) || bool_decide (name ∈ builtins)
  then ret name
  else raise (NameError name).

(** [main()]: the callee is looked up before the call is made. *)
Definition main : py W unit :=
  callee <- load_global "_process_shuffler_yaml_file" ;;
  call callee ["cloud_project_prefix"; "cloud_project_name"; "gce_pd_name"].

(** Running the file as a script: the module body (whose imports of
    [process_starter] succeed or not), then the [__main__] guard. *)
Definition run_script (imports_succeed : bool) : py W unit :=
  (if imports_succeed then ret tt else raise ImportError) ;;
  main.

End Interpreter.

End ContainerUtil.

(** ** tools/demo/generate_viz.py *)

Module GenerateViz.

(** *** Numbers

    A Python float is an IEEE 754 binary64 number: Rocq's primitive
    [float], with its rounded operations, its infinities and its NaN. *)

(** What [max(x, 0)] returns for a float [x]: the int [0], or [x]. *)
Inductive number : Type :=
| IntZero
| Float (x : PrimFloat.float).

(** [max(x, 0)]: the later argument is taken when it is strictly greater,
    that is when [0 > x]; for a NaN it is not. *)
Definition max0 (x : PrimFloat.float) : number :=
  if PrimFloat.ltb x 0 then IntZero else Float x.

(** [n < 0], [0 <= n] and [x < n], as Python compares floats with each
    other and with the int 0. *)
Definition below_zero (n : number) : bool :=
  match n with
  | IntZero => false
  | Float x => PrimFloat.ltb x 0
  end.

Definition at_least_zero (n : number) : bool :=
  match n with
  | IntZero => true
  | Float x => PrimFloat.leb 0 x
  end.

Definition less (x : PrimFloat.float) (n : number) : bool :=
  match n with
  | IntZero => PrimFloat.ltb x 0
  | Float y => PrimFloat.ltb x y
  end.

(** The float of the literal [1.96]. *)
Definition c196 : PrimFloat.float := 0x1.f5c28f5c28f5cp+0%float.

(** [row[i]] *)
Definition index {W} (row : list string) (i : nat) : py W string :=
  match row !! i with
  | Some cell => ret cell
  | None => raise IndexError
  end.

(** *** The csv reader

    A record of the file with the number of physical lines it spans (a
    quoted cell may hold line breaks); [reader.line_num] counts the lines
    read so far. *)
Record csv_record : Type := CsvRecord {
  cells : list string;
  lines : nat
}.

(** The rows the reader yields, each with [reader.line_num] as it stands
    when the row is handed out; [line_num] lines were read before. *)
Fixpoint read (line_num : nat) (file : list csv_record)
  : list (nat * list string) :=
  match file with
  | [] => []
  | r :: rest =>
      (line_num + lines r, cells r) :: read (line_num + lines r) rest
  end.

(** One dictionary of [data]. *)
Record usage : Type := Usage {
  hour : Z;
  estimate : number;
  low : number;
  high : PrimFloat.float
}.

Section Builtins.

(** Python's [int()] and [float()] on a string: the value read, or
    [None] where the built-in raises [ValueError]. *)
Variable int_of_string : string -> option Z.
Variable float_of_string : string -> option PrimFloat.float.

(** [int(s)] *)
Definition int {W} (s : string) : py W Z :=
  match int_of_string s with
  | Some n => ret n
  | None => raise ValueError
  end.

(** [float(s)] *)
Definition float {W} (s : string) : py W PrimFloat.float :=
  match float_of_string s with
  | Some x => ret x
  | None => raise ValueError
  end.

(** The dictionary display of the comprehension, its items evaluated in
    source order. *)
Definition usage_of_row {W} (row : list string) : py W usage :=
  c0 <- index row 0 ;; h <- int c0 ;;
  c1 <- index row 1 ;; e <- float c1 ;;
  c1 <- index row 1 ;; e_low <- float c1 ;;
  c2 <- index row 2 ;; s_low <- float c2 ;;
  c1 <- index row 1 ;; e_high <- float c1 ;;
  c2 <- index row 2 ;; s_high <- float c2 ;;
  ret (Usage h (max0 e)
         (max0 (e_low - c196 * s_low)%float)
         (e_high + c196 * s_high)%float).

(** [[... for row in reader if reader.line_num > 1]] *)
Fixpoint comprehension {W} (rows : list (nat * list string))
  : py W (list usage) :=
  match rows with
  | [] => ret []
  | (line_num, row) :: rest =>
      if Nat.ltb 1 line_num then
        d <- usage_of_row row ;;
        ds <- comprehension rest ;;
        ret (d :: ds)
      else comprehension rest
  end.

(** The first three cells of [row] read as the numbers [h], [e] and [s]:
    what [int(row[0])], [float(row[1])] and [float(row[2])] return. *)
Definition reads_as (row : list string) (h : Z) (e s : PrimFloat.float)
  : Prop :=
  exists c0 c1 c2,
    row !! 0 = Some c0 /\ row !! 1 = Some c1 /\ row !! 2 = Some c2
    /\ int c0 tt = (Returned h, tt)
    /\ float c1 tt = (Returned e, tt)
    /\ float c2 tt = (Returned s, tt).

Section Rendering.

(** [gviz_api.DataTable(description).ToJSon(...)] on the loaded data: the
    rendering of the table is the library's. *)
Variable ToJSon : list usage -> string.

(** [buildDataTableJs(data, var_name, ...)] returns [var_name=json;]. *)
Definition buildDataTableJs (data : list usage) (var_name : string)
  : string :=
  (var_name ++ "=" ++ ToJSon data ++ ";")%string.

Definition USAGE_BY_HOUR_JS_VAR_NAME : string := "usage_by_hour_data".

(** [buildUsageByHourJs()], over the content of the csv file if the file
    exists ([USAGE_BY_HOUR_CSV_FILE] is its path); the world is the lines
    printed. *)
Definition buildUsageByHourJs (USAGE_BY_HOUR_CSV_FILE : string)
    (csvfile : option (list csv_record)) : py (list string) (option string) :=
  match csvfile with
  | None =>
      (fun out =>
         (Returned None,
          out ++ [("File not found: " ++ USAGE_BY_HOUR_CSV_FILE)%string]))
  | Some file =>
      data <- comprehension (read 0 file) ;;
      ret (Some (buildDataTableJs data USAGE_BY_HOUR_JS_VAR_NAME))
  end.

End Rendering.

End Builtins.

(** *** Readers of decimal cells

    To run the functions on example files: readers of the cells a csv
    file of numbers holds, as [int()] and [float()] read them. Blanks
    around the number are dropped; a float may be written with a
    fraction and an exponent, or be an infinity or a NaN, and is rounded
    to the nearest binary64 number. *)

Definition is_blank (c : ascii) : bool :=
  let n := nat_of_ascii c in (Nat.leb 9 n && Nat.leb n 13) || Nat.eqb n 32.

Fixpoint lstrip (s : string) : string :=
  match s with
  | String c rest => if is_blank c then lstrip rest else s
  | EmptyString => EmptyString
  end.

(** [s] without the blanks at its end. *)
Fixpoint rstrip (s : string) : string :=
  match s with
  | EmptyString => EmptyString
  | String c rest =>
      match rstrip rest with
      | EmptyString => if is_blank c then EmptyString else String c EmptyString
      | kept => String c kept
      end
  end.

Definition strip (s : string) : string := rstrip (lstrip s).

Definition digit (c : ascii) : option Z :=
  let n := Z.of_nat (nat_of_ascii c) in
  if (48 <=? n)%Z && (n <=? 57)%Z then Some (n - 48)%Z else None.

(** The value of a run of decimal digits, after the digits in [acc]. *)
Fixpoint digits (acc : Z) (s : string) : option Z :=
  match s with
  | EmptyString => Some acc
  | String c rest =>
      match digit c with
      | Some d => digits (10 * acc + d)%Z rest
      | None => None
      end
  end.

(** An optional sign (true for minus), and the rest of the literal. *)
Definition signed (s : string) : bool * string :=
  match s with
  | String "-"%char rest => (true, rest)
  | String "+"%char rest => (false, rest)
  | _ => (false, s)
  end.

(** The text before the first [sep] and the text after it, if [sep]
    occurs. *)
Fixpoint cut (sep : ascii -> bool) (s : string) : string * option string :=
  match s with
  | EmptyString => (EmptyString, None)
  | String c rest =>
      if sep c then (EmptyString, Some rest)
      else let '(before, after) := cut sep rest in (String c before, after)
  end.

Definition decimal_int (s : string) : option Z :=
  let '(negative, body) := signed (strip s) in
  match body, digits 0 body with
  | String _ _, Some n => Some (if negative then - n else n)%Z
  | _, _ => None
  end.

(** The binary64 number nearest to [n / d] (ties to even), for [0 <= n]
    and [0 < d]: the quotient is taken with more bits than a float holds
    and a last bit that tells whether anything was left. *)
Definition nearest (negative : bool) (n d : Z) : PrimFloat.float :=
  if (n =? 0)%Z then (if negative then (-0)%float else 0%float)
  else
    let p := Z.max 0 (64 + Z.log2_up d - Z.log2 n) in
    let q := (n * 2 ^ p / d)%Z in
    let r := ((n * 2 ^ p) mod d)%Z in
    let m := (2 * q + (if r =? 0 then 0 else 1))%Z in
    SF2Prim (binary_normalize prec emax (if negative then - m else m)%Z
               (- p - 1)%Z negative).

Definition lower (s : string) : string :=
  string_of_list_ascii
    (List.map (fun c =>
                 let n := nat_of_ascii c in
                 if Nat.leb 65 n && Nat.leb n 90 then ascii_of_nat (n + 32)
                 else c)
              (list_ascii_of_string s)).

Definition decimal_float (s : string) : option PrimFloat.float :=
  let '(negative, body) := signed (strip s) in
  let name := lower body in
  if String.eqb name "nan" then Some nan
  else if String.eqb name "inf" || String.eqb name "infinity"
  then Some (if negative then neg_infinity else infinity)
  else
    let '(mantissa, exponent) :=
      cut (fun c => Ascii.eqb c "e"%char || Ascii.eqb c "E"%char) body in
    let '(whole, fraction) := cut (Ascii.eqb "."%char) mantissa in
    let fraction := default EmptyString fraction in
    let exp :=
      match exponent with
      | None => Some 0%Z
      | Some e =>
          let '(eneg, ebody) := signed e in
          match ebody, digits 0 ebody with
          | String _ _, Some n => Some (if eneg then - n else n)%Z
          | _, _ => None
          end
      end in
    match (whole ++ fraction)%string, digits 0 (whole ++ fraction), exp with
    | String _ _, Some n, Some e =>
        let e := (e - Z.of_nat (String.length fraction))%Z in
        Some (if (0 <=? e)%Z then nearest negative (n * 10 ^ e) 1
              else nearest negative n (10 ^ (- e)))
    | _, _, _ => None
    end.

End GenerateViz.

(** ** The configuration model (specification, section 4.1) *)

Module Config.

(** The numeric parameters as the caller supplies them. *)
Record RapporParams : Type := Rappor {
  k : Z;          (* Bloom-filter width, in bits *)
  h : Z;          (* number of hash functions *)
  f : Q;          (* permanent-response probability *)
  p : Q;          (* instantaneous-response probability of a 1 for a 0 bit *)
  q : Q;          (* instantaneous-response probability of a 1 for a 1 bit *)
  m : Z           (* number of cohorts *)
}.

Record ForculusParams : Type := Forculus_params {
  t : Z;                   (* encryption threshold *)
  key_derivation : string  (* key derivation parameters, not inspected *)
}.

Inductive Mechanism : Type :=
| RAPPOR (params : RapporParams)
| Forculus (params : ForculusParams).

(** A configuration: a mechanism bound to one field index. *)
Record RandomizerConfig : Type := Build_config {
  field_index : nat;
  mechanism : Mechanism
}.

Definition is_probability (x : Q) : bool := Qle_bool 0 x && Qle_bool x 1.

Definition is_positive (n : Z) : bool := (0 <? n)%Z.

(** Modelled from the spec: the constructor of RandomizerConfig is not in
    the sources. It rejects with [InvalidConfig] when a probability is
    outside [0,1], when [k], [h], [m] or [t] is non-positive, or when
    [h > k]; otherwise it returns the configuration. *)
Definition make_config (field_index : nat) (mech : Mechanism)
  : result RandomizerConfig :=
  let accepted :=
    match mech with
    | RAPPOR r =>
        is_probability (f r) && is_probability (p r) && is_probability (q r)
        && is_positive (k r) && is_positive (h r) && is_positive (m r)
        && (h r <=? k r)%Z
    | Forculus fp => is_positive (t fp)
    end in
  if accepted then Returned (Build_config field_index mech)
  else Raised InvalidConfig.

(** The rejection condition in the specification's words. *)
Definition outside_unit_interval (x : Q) : Prop := (x < 0 \/ 1 < x)%Q.

Definition rejected (mech : Mechanism) : Prop :=
  match mech with
  | RAPPOR r =>
      (outside_unit_interval (f r) \/ outside_unit_interval (p r)
       \/ outside_unit_interval (q r))
      \/ ((k r <= 0)%Z \/ (h r <= 0)%Z \/ (m r <= 0)%Z)
      \/ (h r > k r)%Z
  | Forculus fp => (t fp <= 0)%Z
  end.

End Config.

(** ** The Bloom-filter mapper and the RAPPOR encoder
       (specification, sections 4.2 and 4.3) *)

Module Rappor.

Abbreviation BitVector := (list bool) (only parsing).

Definition zeros (k : nat) : BitVector := replicate k false.

(** The [k]-bit vector whose only lit bit is bit [i]. *)
Definition single_bit (k i : nat) : BitVector :=
  (fun j => bool_decide (j = i)) <$> seq 0 k.

Definition bv_or (a b : BitVector) : BitVector := zip_with orb a b.

Section Mapper.

(** The hash family is left to the implementer: [hashIndex cohort j] is
    the [j]-th hash function under the seed of [cohort]. *)
Variable hashIndex : nat -> nat -> string -> nat.

(** The single-bit vectors of the hash functions [js] for [value], ORed
    together. *)
Definition lit (k cohort : nat) (value : string) (js : list nat) : BitVector :=
  foldr (fun j acc => bv_or (single_bit k (hashIndex cohort j value mod k)) acc)
        (zeros k) js.

(** Modelled from the spec: the Bloom-filter mapper is not in the sources.
    For each of the [h] hash functions seeded by (cohort, hash index) it
    sets the bit at [hashIndex(value) mod k], and ORs the single-bit
    vectors together. *)
Definition mapToBloom (value : string) (cohort : nat)
    (config : Config.RapporParams) : BitVector :=
  lit (Z.to_nat (Config.k config)) cohort value
      (seq 0 (Z.to_nat (Config.h config))).

End Mapper.

Abbreviation Secret := string (only parsing).

(** The key of the permanent-response cache: (secret, field, cohort). *)
Abbreviation cache_key := (Secret * nat * nat)%type (only parsing).

(** The state of a run: the permanent-response cache, and how many draws
    the run has taken from its randomness source. *)
Record run_state : Type := RunState {
  cache : gmap cache_key BitVector;
  drawn : nat
}.

Record EncodedReport : Type := Report {
  cohort : nat;
  bits : BitVector
}.

(** The permanent response to one bit [b] of the Bloom filter under a
    uniform draw [u] of [0,1): 1 with probability f/2, 0 with probability
    f/2, and [b] itself with probability 1-f. *)
Definition prr_bit (f : Q) (u : Q) (b : bool) : bool :=
  if Qle_bool (f / 2) u then (if Qle_bool f u then b else false) else true.

(** The instantaneous response to one bit [b'] of the permanent response:
    1 with probability [q] if [b'] is 1, with probability [p] if it is 0. *)
Definition irr_bit (p q : Q) (u : Q) (b' : bool) : bool :=
  negb (Qle_bool (if b' then q else p) u).

Section Encoder.

Variable hashIndex : nat -> nat -> string -> nat.

(** The randomness source of the run: its [n]-th uniform draw of [0,1). *)
Variable draw : nat -> Q.

(** Take the next [n] draws. *)
Definition draws (n : nat) : py run_state (list Q) :=
  fun s => (Returned (draw <$> seq (drawn s) n),
            RunState (cache s) (drawn s + n)).

(** Stage 1: the permanent response for [key], computed from the Bloom
    filter [B] on the first call and read from the cache afterwards. *)
Definition permanent (key : cache_key) (f : Q) (B : BitVector)
  : py run_state BitVector :=
  fun s =>
    match cache s !! key with
    | Some B' => (Returned B', s)
    | None =>
        (us <- draws (length B) ;;
         let B' := zip_with (prr_bit f) us B in
         (fun s' => (Returned B', RunState (<[key := B']> (cache s')) (drawn s'))))
          s
    end.

(** Stage 2: the instantaneous response, drawn anew for every report. *)
Definition instantaneous (p q : Q) (B' : BitVector)
  : py run_state BitVector :=
  us <- draws (length B') ;;
  ret (zip_with (irr_bit p q) us B').

(** Read-only indexed field access. *)
Definition field_at (entry : Entry) (fieldIndex : nat) : py run_state string :=
  match entry !! fieldIndex with
  | Some (_, v) => ret v
  | None => raise InvalidFieldIndex
  end.

(** Modelled from the spec: the RAPPOR encoder is not in the sources.
    [encode(entry, fieldIndex, cohort, config, secretCache)], with the
    secret of the entry's user and the cache inside the run state: field
    extraction, Bloom-filter mapping, permanent response (cached per
    (secret, field, cohort)), instantaneous response, report assembly. *)
Definition encode (entry : Entry) (fieldIndex : nat) (secret : Secret)
    (cohort : nat) (config : Config.RapporParams)
  : py run_state EncodedReport :=
  v <- field_at entry fieldIndex ;;
  let B := mapToBloom hashIndex v cohort config in
  B' <- permanent (secret, fieldIndex, cohort) (Config.f config) B ;;
  reported <- instantaneous (Config.p config) (Config.q config) B' ;;
  ret (Report cohort reported).

(** One call of the encoder in a run. *)
Record call : Type := Call {
  c_entry : Entry;
  c_field : nat;
  c_secret : Secret;
  c_cohort : nat;
  c_config : Config.RapporParams
}.

Definition key_of (c : call) : cache_key := (c_secret c, c_field c, c_cohort c).

(** A run: the calls in order, over one state. Each report is returned
    with the state the run is in right after it, from which the test hook
    [cached] reads the permanent response. *)
Fixpoint run (calls : list call) : py run_state (list (EncodedReport * run_state)) :=
  match calls with
  | [] => ret []
  | c :: rest =>
      r <- encode (c_entry c) (c_field c) (c_secret c) (c_cohort c) (c_config c) ;;
      snapshot <- (fun s => (Returned s, s)) ;;
      rs <- run rest ;;
      ret ((r, snapshot) :: rs)
  end.

End Encoder.

(** The test hook: the cached permanent response of a key. *)
Definition cached (key : cache_key) (s : run_state) : option BitVector :=
  cache s !! key.

(** The draws with indices [from, from + n). *)
Definition draws_between (draw : nat -> Q) (from n : nat) : list Q :=
  draw <$> seq from n.

(** A hash family and a randomness source to run the encoder with in
    examples: a polynomial hash of the character codes seeded by cohort
    and hash index, and the draws 0, 4/17, 10/17, 1/17, 11/17, ... *)
Definition demo_hashIndex (cohort j : nat) (value : string) : nat :=
  N.to_nat
    (foldr (fun c acc => (N_of_ascii c + 31 * acc) mod 1021)%N
           (N.of_nat (7 * cohort + 13 * j + 1))
           (list_ascii_of_string value)).

Definition demo_draw (n : nat) : Q := Z.of_nat ((n * n + 3 * n) mod 17) # 17.

(** A run of three calls: two entries of one user, around one of another
    user, all for field 1 in cohort 0. *)
Definition demo_config : Config.RapporParams :=
  Config.Rappor 16 2 (1 # 2) (1 # 4) (3 # 4) 1.

Definition demo_alice : call :=
  Call [("user_id", "alice"); ("module", "settings")] 1 "secret of alice" 0
       demo_config.

Definition demo_bob : call :=
  Call [("user_id", "bob"); ("module", "camera")] 1 "secret of bob" 0
       demo_config.

Definition demo_run : result (list (EncodedReport * run_state)) * run_state :=
  run demo_hashIndex demo_draw [demo_alice; demo_bob; demo_alice]
      (RunState ∅ 0).

Definition demo_outs : list (EncodedReport * run_state) :=
  match fst demo_run with
  | Returned outs => outs
  | Raised _ => []
  end.

(** The report of the [i]-th call and the state right after it. *)
Definition demo_report (i : nat) : EncodedReport :=
  fst (nth i demo_outs (Report 0 [], RunState ∅ 0)).

Definition demo_state (i : nat) : run_state :=
  snd (nth i demo_outs (Report 0 [], RunState ∅ 0)).

End Rappor.

(** ** tools/demo/generate_viz.py: the script around the table *)

Module GenerateVizScript.

Import GenerateViz.

(** The line feed of the string literals. *)
Definition nl : string := String (ascii_of_nat 10) EmptyString.

(** The world of [generateViz]: the lines printed and the content of
    [OUTPUT_JS_FILE], if the file exists. *)
Record world : Type := World {
  printed : list string;
  output_js : option string
}.

Definition print (line : string) : py world unit :=
  fun w => (Returned tt, World (printed w ++ [line]) (output_js w)).

(** A computation that only prints, run in the world of the script. *)
Definition printing {A} (c : py (list string) A) : py world A :=
  fun w => let '(r, out) := c (printed w) in (r, World out (output_js w)).

(** [open(OUTPUT_JS_FILE, 'w+b')]: the file is created or emptied. Its
    directory is the one the csv file was just read from. *)
Definition open_output : py world unit :=
  fun w => (Returned tt, World (printed w) (Some EmptyString)).

(** [f.write(text)] *)
Definition write (text : string) : py world unit :=
  fun w =>
    (Returned tt,
     World (printed w) (Some (default EmptyString (output_js w) ++ text)%string)).

Section Script.

Variable int_of_string : string -> option Z.
Variable float_of_string : string -> option PrimFloat.float.
Variable ToJSon : list usage -> string.
Variables USAGE_BY_HOUR_CSV_FILE VIZ_HTML_FILE : string.

Definition generated_by : string :=
  ("// This js file is generated by the script generate_viz.py" ++ nl ++ nl)%string.

(** [generateViz()], over the content of the csv file if the file
    exists. *)
Definition generateViz (csvfile : option (list csv_record)) : py world unit :=
  print "Generating visualization..." ;;
  usage_by_hour_js <-
    printing (buildUsageByHourJs int_of_string float_of_string ToJSon
                USAGE_BY_HOUR_CSV_FILE csvfile) ;;
  match usage_by_hour_js with
  | None => ret tt
  | Some js =>
      open_output ;;
      write generated_by ;;
      write (js ++ nl ++ nl)%string ;;
      write EmptyString ;;
      print "View the vizualization in your browser:" ;;
      print ("file://" ++ VIZ_HTML_FILE)%string
  end.

End Script.

End GenerateVizScript.

(** ** visualization/generate_data_js.py *)

Module GenerateDataJs.

(** One dictionary of [data]. *)
Record module_count : Type := ModuleCount {
  module : string;
  count : Z
}.

Section Builtins.

(** Python's [int()] on a string: the value read, or [None] where the
    built-in raises [ValueError]. *)
Variable int_of_string : string -> option Z.

(** [{"module" : row[0], "count": int(row[1])}], its items evaluated in
    source order. *)
Definition dict_of_row {W} (row : list string) : py W module_count :=
  c0 <- GenerateViz.index row 0 ;;
  c1 <- GenerateViz.index row 1 ;;
  n <- GenerateViz.int int_of_string c1 ;;
  ret (ModuleCount c0 n).

(** [[... for row in reader]] *)
Fixpoint comprehension {W} (rows : list (list string))
  : py W (list module_count) :=
  match rows with
  | [] => ret []
  | row :: rest =>
      d <- dict_of_row row ;;
      ds <- comprehension rest ;;
      ret (d :: ds)
  end.

(** The row reads as the module name [m] and the count [n]: what
    [row[0]] and [int(row[1])] return. *)
Definition reads_as (row : list string) (m : string) (n : Z) : Prop :=
  row !! 0 = Some m
  /\ exists c1,
       row !! 1 = Some c1
       /\ GenerateViz.int int_of_string c1 tt = (Returned n, tt).

Section Script.

(** [data_table.ToJSon(columns_order=("module", "count"),
    order_by="module")] on the loaded data: the library's rendering. *)
Variable ToJSon : list module_count -> string.

Definition generated_by : string :=
  ("// This js file is generated by the script generate_data_js.py"
   ++ GenerateVizScript.nl ++ GenerateVizScript.nl)%string.

(** [f.write(text)] on [data.js]. *)
Definition write (text : string) : py (option string) unit :=
  fun data_js =>
    (Returned tt, Some (default EmptyString data_js ++ text)%string).

(** [main()], over the rows the reader yields from [data.csv]; the world
    is the content of [data.js], if the file exists. *)
Definition main (rows : list (list string)) : py (option string) unit :=
  data <- comprehension rows ;;
  let json := ToJSon data in
  (fun _ => (Returned tt, Some EmptyString)) ;;
  write generated_by ;;
  write ("var module_usage_data=" ++ json ++ ";")%string.

End Script.

End Builtins.

End GenerateDataJs.

(** ** tools/container_util.py: the library functions *)

Module ContainerUtilFunctions.

Import StableConfigParser.

Definition CONTAINER_REGISTRY_URI : string := "us.gcr.io".

Definition COBALT_COMMON_IMAGE_NAME : string := "cobalt-common".
Definition ANALYZER_SERVICE_IMAGE_NAME : string := "analyzer-service".
Definition REPORT_MASTER_IMAGE_NAME : string := "report-master".
Definition SHUFFLER_IMAGE_NAME : string := "shuffler".

Definition ANALYZER_PRIVATE_KEY_SECRET_NAME : string := "analyzer-private-key".

(** [not s] for a string [s]: the empty string is false. *)
Definition is_empty (s : string) : bool :=
  match s with
  | EmptyString => true
  | String _ _ => false
  end.

Definition _image_registry_uri
    (cloud_project_prefix cloud_project_name image_name : string) : string :=
  if is_empty cloud_project_prefix then
    (CONTAINER_REGISTRY_URI ++ "/" ++ cloud_project_name ++ "/" ++ image_name)%string
  else
    (CONTAINER_REGISTRY_URI ++ "/" ++ cloud_project_prefix ++ "/"
     ++ cloud_project_name ++ "/" ++ image_name)%string.

Definition _compound_project_name
    (cloud_project_prefix cloud_project_name : string) : string :=
  if is_empty cloud_project_prefix then cloud_project_name
  else (cloud_project_prefix ++ ":" ++ cloud_project_name)%string.

(** *** [str.replace]

    [s.replace(old, new)] replaces the occurrences of [old] in [s] found
    from left to right without overlap. [replace_skipping] walks [s] and
    skips the [skip] characters left of an occurrence just replaced. *)
Fixpoint replace_skipping (old new : string) (skip : nat) (s : string)
  : string :=
  match s with
  | EmptyString => EmptyString
  | String c rest =>
      match skip with
      | S n => replace_skipping old new n rest
      | O =>
          if String.prefix old s
          then (new ++ replace_skipping old new (String.length old - 1) rest)%string
          else String c (replace_skipping old new 0 rest)
      end
  end.

(** For the empty [old], [new] goes before every character and at the
    end. *)
Fixpoint replace_empty (new : string) (s : string) : string :=
  match s with
  | EmptyString => new
  | String c rest => (new ++ String c (replace_empty new rest))%string
  end.

Definition replace (old new : string) (s : string) : string :=
  match old with
  | EmptyString => replace_empty new s
  | String _ _ => replace_skipping old new 0 s
  end.

(** [old] occurs in [s]. *)
Definition occurs (old s : string) : Prop :=
  exists a b, s = (a ++ old ++ b)%string.

(** The same as a test: [old] is a prefix of [s] or occurs further on. *)
Fixpoint occursb (old s : string) : bool :=
  String.prefix old s
  || match s with
     | EmptyString => false
     | String _ rest => occursb old rest
     end.

(** The inner loop of [_replace_tokens_in_template]:
<<
      for token in token_replacements:
        line = line.replace(token, token_replacements[token])
>>
    over the items of the dictionary in its iteration order. *)
Fixpoint replace_tokens (token_replacements : list (string * string))
    (line : string) : string :=
  match token_replacements with
  | [] => line
  | (token, value) :: rest => replace_tokens rest (replace token value line)
  end.

(** *** The world

    The commands handed to [subprocess.check_call] so far, the
    directories that exist, and the regular files that exist, each with
    the strings written to it in order. Directories and files are named
    by the file system's own identity of them: two paths of one file
    have one entry. *)
Record world : Type := World {
  commands : list (list string);
  dirs : gset string;
  files : gmap string (list string)
}.

(** What [check_call] makes of the way a command ended. *)
Definition outcome_of (p : process) : result unit :=
  match p with
  | NotStarted => Raised OSError
  | Exited rc _ =>
      if Z.eqb rc 0 then Returned tt
      else Raised (CalledProcessError rc EmptyString)
  end.

Section Functions.

(** What the [n]-th command started does, and [os.path.dirname]. *)
Variable os_run : nat -> list string -> process.
Variable dirname : string -> string.

(** The directory or file a path names. *)
Variable resolve : string -> string.

(** The part of the file system: whether [os.makedirs] on a path, [open]
    for writing on a path, the [n]-th [f.write] to a path and the
    closing of the file at a path are refused; the directories that
    [os.makedirs] creates above the one asked for, or before it is
    refused; and what [fileinput.input] gives for a file name: the lines
    it yields and, when the reading fails, the exception raised in place
    of the next line (with no line before it, an [IOError], when the file
    cannot be opened). *)
Variable makedirs_fails : string -> bool.
Variable makedirs_creates : string -> gset string.
Variable open_fails : string -> bool.
Variable write_fails : string -> nat -> bool.
Variable close_fails : string -> bool.
Variable input_lines : string -> list string * option exn.

(** [subprocess.check_call(cmd)]: the output of the process is not
    captured, so the exception carries none. *)
Definition check_call (cmd : list string) : py world unit :=
  fun w =>
    let w' := World (commands w ++ [cmd]) (dirs w) (files w) in
    match os_run (length (commands w)) cmd with
    | NotStarted => (Raised OSError, w')
    | Exited rc _ =>
        if Z.eqb rc 0 then (Returned tt, w')
        else (Raised (CalledProcessError rc EmptyString), w')
    end.

(** [os.path.exists(path)]: the path names a directory or a file; the
    empty path names nothing. *)
Definition exists_ (path : string) (w : world) : bool :=
  negb (is_empty path)
  && (bool_decide (resolve path ∈ dirs w)
      || bool_decide (is_Some (files w !! resolve path))).

(** [os.makedirs(dir_path)] for a path that does not exist; the empty
    path is always refused. *)
Definition makedirs (dir_path : string) : py world unit :=
  fun w =>
    let created := makedirs_creates dir_path ∪ dirs w in
    if is_empty dir_path || makedirs_fails dir_path
    then (Raised OSError, World (commands w) created (files w))
    else (Returned tt,
          World (commands w) ({[resolve dir_path]} ∪ created) (files w)).

(** [_ensure_dir(dir_path)] *)
Definition _ensure_dir (dir_path : string) : py world unit :=
  fun w =>
    if exists_ dir_path w then (Returned tt, w) else makedirs dir_path w.

(** [_build_docker_image(image_name, deploy_dir, extra_args=None)];
    [None] and the empty list are both false in [if extra_args]. *)
Definition _build_docker_image (image_name deploy_dir : string)
    (extra_args : option (list string)) : py world unit :=
  let cmd := ["docker"; "build"] in
  let cmd :=
    match extra_args with
    | Some (arg :: args) => cmd ++ arg :: args
    | _ => cmd
    end in
  let cmd := cmd ++ ["-t"; image_name; deploy_dir] in
  check_call cmd.

Definition _push_to_container_registry
    (cloud_project_prefix cloud_project_name image_name : string)
  : py world unit :=
  let registry_tag :=
    _image_registry_uri cloud_project_prefix cloud_project_name image_name in
  check_call ["docker"; "tag"; image_name; registry_tag] ;;
  check_call ["gcloud"; "docker"; "--"; "push"; registry_tag].

Definition push_analyzer_service_to_container_registry
    (cloud_project_prefix cloud_project_name : string) : py world unit :=
  _push_to_container_registry cloud_project_prefix cloud_project_name
    ANALYZER_SERVICE_IMAGE_NAME.

Definition push_report_master_to_container_registry
    (cloud_project_prefix cloud_project_name : string) : py world unit :=
  _push_to_container_registry cloud_project_prefix cloud_project_name
    REPORT_MASTER_IMAGE_NAME.

Definition push_shuffler_to_container_registry
    (cloud_project_prefix cloud_project_name : string) : py world unit :=
  _push_to_container_registry cloud_project_prefix cloud_project_name
    SHUFFLER_IMAGE_NAME.

(** [open(out_file, 'w+b')]: the file is created or emptied. *)
Definition open_for_writing (out_file : string) : py world unit :=
  fun w =>
    if open_fails out_file then (Raised IOError, w)
    else (Returned tt,
          World (commands w) (dirs w) (<[resolve out_file := []]> (files w))).

(** Leaving [with open(out_file, 'w+b') as f]: the file is closed,
    whether the body returned or raised, and an exception of the closing
    is the one that leaves. *)
Definition closing {A} (out_file : string) (body : py world A)
  : py world A :=
  fun w =>
    let (r, w') := body w in
    if close_fails out_file then (Raised IOError, w') else (r, w').

(** [for line in fileinput.input(template_file): body(line)] *)
Definition for_input (template_file : string) (body : string -> py world unit)
  : py world unit :=
  let (template, failure) := input_lines template_file in
  for_each template body ;;
  match failure with
  | Some e => raise e
  | None => ret tt
  end.

(** [f.write(line)] on the file opened at [out_file]. *)
Definition write_line (out_file line : string) : py world unit :=
  fun w =>
    let written := default [] (files w !! resolve out_file) in
    if write_fails out_file (length written) then (Raised IOError, w)
    else (Returned tt,
          World (commands w) (dirs w)
                (<[resolve out_file := written ++ [line]]> (files w))).

(** [_replace_tokens_in_template(template_file, out_file,
    token_replacements)] *)
Definition _replace_tokens_in_template (template_file out_file : string)
    (token_replacements : list (string * string)) : py world unit :=
  _ensure_dir (dirname out_file) ;;
  open_for_writing out_file ;;
  closing out_file
    (for_input template_file (fun line =>
       write_line out_file (replace_tokens token_replacements line))).

(** [_start_gke_service(deployment_template_file, deployment_file,
    token_substitutions)] *)
Definition _start_gke_service (deployment_template_file deployment_file : string)
    (token_substitutions : list (string * string)) : py world unit :=
  _replace_tokens_in_template deployment_template_file deployment_file
    token_substitutions ;;
  check_call ["kubectl"; "create"; "-f"; deployment_file].

Definition _stop_gke_service (name : string) : py world unit :=
  check_call ["kubectl"; "delete"; "service,deployment"; name].

End Functions.

End ContainerUtilFunctions.

(** * Properties *)

(** ** The execution monad *)

Section MonadFacts.

Context {W A B : Type}.

Lemma bind_returned (c : py W A) (k : A -> py W B) w a w' :
  c w = (Returned a, w') -> bind c k w = k a w'.
Proof. intros Hc. unfold bind. now rewrite Hc. Qed.

Lemma bind_raised (c : py W A) (k : A -> py W B) w e w' :
  c w = (Raised e, w') -> bind c k w = (Raised e, w').
Proof. intros Hc. unfold bind. now rewrite Hc. Qed.

(** A sequence returns only if its first part returned. *)
Lemma bind_inv_returned (c : py W A) (k : A -> py W B) w b w2 :
  bind c k w = (Returned b, w2) ->
  exists a w1, c w = (Returned a, w1) /\ k a w1 = (Returned b, w2).
Proof.
  unfold bind. destruct (c w) as [[a|e] w1]; intros Hk.
  - exists a, w1. split; [reflexivity | exact Hk].
  - discriminate Hk.
Qed.

End MonadFacts.

(** From [H : (x <- c ;; k) w = (Returned b, w2)] to what [c] returned,
    as [Ha], leaving [H] about the rest. *)
Ltac step_returned H :=
  apply bind_inv_returned in H;
  let a := fresh "a" in
  let w := fresh "w" in
  let Ha := fresh "Ha" in
  destruct H as (a & w & Ha & H).

(** ** randomizers/help_query_randomizer.py *)

Section HelpQueryFacts.

Import HelpQuery.

Lemma randomize_nil (f : csv_file) : randomize [] f = (Returned tt, f).
Proof. reflexivity. Qed.

(** One turn of the loop. *)
Lemma randomize_cons (e : Entry) (entries : list Entry) (f : csv_file) :
  randomize (e :: entries) f =
  match field "help_query" e with
  | Some q => randomize entries (f ++ [[q]])
  | None => (Raised (AttributeError "help_query"), f)
  end.
Proof.
  unfold randomize. simpl. unfold bind at 1 2. unfold getattr.
  destruct (field "help_query" e); reflexivity.
Qed.

Lemma row_of_entry (e : Entry) :
  is_entry e -> exists q, field "help_query" e = Some q /\ row_of e = [q].
Proof.
  intros [q Hq]. exists q. unfold row_of. rewrite Hq. split; reflexivity.
Qed.

(** On entries that all have a help query the loop runs to its end and
    appends their rows. *)
Lemma randomize_rows (entries : list Entry) :
  Forall is_entry entries ->
  forall f, randomize entries f = (Returned tt, f ++ (row_of <$> entries)).
Proof.
  induction 1 as [|e entries He _ IH]; intros f.
  - rewrite randomize_nil. simpl. now rewrite app_nil_r.
  - rewrite randomize_cons.
    destruct (row_of_entry e He) as (q & Hq & Hrow). rewrite Hq, IH.
    simpl. rewrite Hrow, <- app_assoc. reflexivity.
Qed.

(** The loop stops at the first entry without a help query. *)
Lemma randomize_raises (entries : list Entry) :
  ~ Forall is_entry entries ->
  forall f, exists f',
    randomize entries f = (Raised (AttributeError "help_query"), f').
Proof.
  induction entries as [|e entries IH]; intros Hnot f.
  - destruct Hnot. constructor.
  - rewrite randomize_cons. destruct (field "help_query" e) as [q|] eqn:Hq.
    + apply IH. intros Hall. apply Hnot. constructor; [now exists q | exact Hall].
    + now exists f.
Qed.

(** C1 (what the code does): for every batch, built here from the user
    ids and help queries of its entries, the row written for each entry
    is its help query itself, in clear; no encryption is applied to it. *)
Theorem randomize_writes_plaintext (batch : list (string * string))
    (f : csv_file) :
  randomize
    ((fun '(user_id, q) => [("user_id", user_id); ("help_query", q)]) <$> batch)
    f =
  (Returned tt, f ++ ((fun '(user_id, q) => [q]) <$> batch)).
Proof.
  rewrite randomize_rows.
  - rewrite <- list_fmap_compose. do 2 f_equal.
    apply list_fmap_ext. intros _ [user_id q] _. reflexivity.
  - apply Forall_fmap, Forall_forall. intros [user_id q] _.
    now exists q.
Qed.

(** C2: on every list of entries the run hands the writer exactly one row
    per entry, none dropped and none duplicated, in the order of the
    entries: the row at position [i] is the row of the [i]-th entry. *)
Theorem randomize_one_row_per_entry (entries : list Entry) (f : csv_file) :
  Forall is_entry entries ->
  exists rows : list Row,
    randomize entries f = (Returned tt, f ++ rows)
    /\ length rows = length entries
    /\ forall i e, entries !! i = Some e ->
         exists q, field "help_query" e = Some q /\ rows !! i = Some [q].
Proof.
  intros Hall. exists (row_of <$> entries). split; [|split].
  - now apply randomize_rows.
  - apply length_fmap.
  - intros i e Hi.
    assert (He : is_entry e).
    { rewrite Forall_forall in Hall. apply Hall.
      eapply list_elem_of_lookup_2, Hi. }
    destruct (row_of_entry e He) as (q & Hq & Hrow). exists q. split; [exact Hq|].
    rewrite list_lookup_fmap, Hi. simpl. now rewrite Hrow.
Qed.

Lemma randomize_one_row_per_entry_witness :
  exists rows : list Row,
    randomize [[("user_id", "1"); ("help_query", "wifi")];
               [("user_id", "2"); ("help_query", "reset pin")]] [] =
      (Returned tt, [] ++ rows)
    /\ length rows = 2
    /\ forall i e,
         [[("user_id", "1"); ("help_query", "wifi")];
          [("user_id", "2"); ("help_query", "reset pin")]] !! i = Some e ->
         exists q, field "help_query" e = Some q /\ rows !! i = Some [q].
Proof.
  apply (randomize_one_row_per_entry
           [[("user_id", "1"); ("help_query", "wifi")];
            [("user_id", "2"); ("help_query", "reset pin")]] []).
  repeat constructor; unfold is_entry; simpl; eauto.
Defined.


End HelpQueryFacts.

(** ** prototype/randomizers/module_name_randomizer.py *)

Section ModuleNameFacts.

Import ModuleName.

Variables RAPPOR_MODULE_NAME_PR_CONFIG RAPPOR_MODULE_NAME_CONFIG : string.
Variables MODULE_NAME_PR_RANDOMIZER_OUTPUT_FILE_NAME
          MODULE_NAME_RANDOMIZER_OUTPUT_FILE_NAME : string.
Variable W : Type.
Variable randomizeUsingRappor :
  list Entry -> list (nat * bool * string) -> string -> py W unit.

Local Abbreviation randomize :=
  (randomize RAPPOR_MODULE_NAME_PR_CONFIG RAPPOR_MODULE_NAME_CONFIG
     MODULE_NAME_PR_RANDOMIZER_OUTPUT_FILE_NAME
     MODULE_NAME_RANDOMIZER_OUTPUT_FILE_NAME W randomizeUsingRappor).

(** C8: with [for_private_release=True] the private-release config file
    and output file are selected, with [False], and when the argument is
    left out, the standard pair; in each case the one call made is
    [randomizeUsingRappor] on the entries, for field index 1 with Bloom
    filters on. *)
Theorem randomize_selects_files (entries : list Entry) :
  randomize entries (Some true) =
    randomizeUsingRappor entries
      [(1, true, RAPPOR_MODULE_NAME_PR_CONFIG)]
      MODULE_NAME_PR_RANDOMIZER_OUTPUT_FILE_NAME
  /\ randomize entries (Some false) =
    randomizeUsingRappor entries
      [(1, true, RAPPOR_MODULE_NAME_CONFIG)]
      MODULE_NAME_RANDOMIZER_OUTPUT_FILE_NAME
  /\ randomize entries None = randomize entries (Some false).
Proof. repeat split. Qed.

End ModuleNameFacts.

(** ** config/config_parser/test_stable_config_parser.py *)

Section StableConfigParserFacts.

Import StableConfigParser.

Variables CONFIG_PARSER_BIN CONFIG_DIR : string.
Variable os_run : nat -> list string -> process.

Local Abbreviation cmd := (cmd CONFIG_PARSER_BIN CONFIG_DIR).
Local Abbreviation check_output := (check_output os_run).
Local Abbreviation main := (main CONFIG_PARSER_BIN CONFIG_DIR os_run).

Lemma check_output_exit_zero c w out :
  os_run (length (invoked w)) c = Exited 0 out ->
  check_output c w = (Returned out, World (invoked w ++ [c]) (printed w)).
Proof. intros Hrun. unfold StableConfigParser.check_output. now rewrite Hrun. Qed.

(** What [main] does once both runs of the parser have exited with
    status 0 and written [out1] and [out2]. *)
Lemma main_after_two_runs w out1 out2 :
  os_run (length (invoked w)) cmd = Exited 0 out1 ->
  os_run (S (length (invoked w))) cmd = Exited 0 out2 ->
  main w =
  if String.eqb out1 out2
  then (Returned 0%Z, World (invoked w ++ [cmd; cmd]) (printed w ++ ["PASS"]))
  else (Raised different_outputs, World (invoked w ++ [cmd; cmd]) (printed w)).
Proof.
  intros H1 H2. unfold StableConfigParser.main.
  rewrite (bind_returned _ _ _ _ _ (check_output_exit_zero _ _ _ H1)).
  assert (H2' : check_output cmd (World (invoked w ++ [cmd]) (printed w)) =
                (Returned out2, World (invoked w ++ [cmd; cmd]) (printed w))).
  { rewrite (check_output_exit_zero _ _ out2).
    - simpl. now rewrite <- app_assoc.
    - simpl. rewrite length_app. simpl. now rewrite Nat.add_1_r. }
  rewrite (bind_returned _ _ _ _ _ H2').
  destruct (String.eqb out1 out2); reflexivity.
Qed.

(** C7 (with the condition the code puts on it): when both runs of the
    parser exit with status 0, [main] has run the same command twice; it
    raises an exception if and only if the two outputs differ, and then
    the exception is the one of the test; when the outputs are identical
    it prints PASS and returns 0. *)
Theorem main_compares_outputs (w : world) (out1 out2 : string) :
  os_run (length (invoked w)) cmd = Exited 0 out1 ->
  os_run (S (length (invoked w))) cmd = Exited 0 out2 ->
  invoked (snd (main w)) = invoked w ++ [cmd; cmd]
  /\ ((exists e, fst (main w) = Raised e) <-> out1 <> out2)
  /\ (out1 <> out2 ->
      main w = (Raised different_outputs,
                World (invoked w ++ [cmd; cmd]) (printed w)))
  /\ (out1 = out2 ->
      main w = (Returned 0%Z,
                World (invoked w ++ [cmd; cmd]) (printed w ++ ["PASS"]))).
Proof.
  intros H1 H2. rewrite (main_after_two_runs w out1 out2 H1 H2).
  destruct (String.eqb_spec out1 out2) as [Heq|Hne]; simpl.
  - split; [reflexivity|]. split; [|split].
    + split; [intros [e He]; discriminate He | intros Hne; now destruct Hne].
    + intros Hne. now destruct Hne.
    + reflexivity.
  - split; [reflexivity|]. split; [|split].
    + split; [intros _; exact Hne | intros _; now eexists].
    + reflexivity.
    + intros Heq. now destruct Hne.
Qed.

End StableConfigParserFacts.

Lemma main_compares_outputs_witness :
  let os_run := fun (n : nat) (_ : list string) =>
    StableConfigParser.Exited 0 (if Nat.eqb n 0 then "Cg==" else "CgA=") in
  let main := StableConfigParser.main "out/config_parser" "third_party/config" os_run in
  let cmd := StableConfigParser.cmd "out/config_parser" "third_party/config" in
  let w := StableConfigParser.World [] [] in
  StableConfigParser.invoked (snd (main w)) = [cmd; cmd]
  /\ ((exists e, fst (main w) = Raised e) <-> "Cg==" <> "CgA=")
  /\ ("Cg==" <> "CgA=" ->
      main w = (Raised StableConfigParser.different_outputs,
                StableConfigParser.World [cmd; cmd] []))
  /\ ("Cg==" = "CgA=" ->
      main w = (Returned 0%Z, StableConfigParser.World [cmd; cmd] ["PASS"])).
Proof.
  intros os_run main cmd w.
  apply (main_compares_outputs "out/config_parser" "third_party/config"
           os_run w "Cg==" "CgA="); reflexivity.
Defined.

(** C7 (as stated) fails: here the parser exits with status 1 both times
    after writing the same bytes. The two outputs are identical, yet
    [main] raises (the [CalledProcessError] of the first run), prints
    nothing, and has run the parser once only. *)
Lemma main_counterexample :
  StableConfigParser.main "out/config_parser" "third_party/config"
    (fun _ _ => StableConfigParser.Exited 1 "no such directory")
    (StableConfigParser.World [] []) =
  (Raised (CalledProcessError 1 "no such directory"),
   StableConfigParser.World
     [StableConfigParser.cmd "out/config_parser" "third_party/config"] []).
Proof. reflexivity. Qed.

(** ** tools/container_util.py *)

Section ContainerUtilFacts.

Import ContainerUtil.

Variable W : Type.
Variable call : string -> list string -> py W unit.

Lemma process_shuffler_yaml_file_unbound :
  load_global W "_process_shuffler_yaml_file" =
  raise (NameError "_process_shuffler_yaml_file").
Proof. vm_compute. reflexivity. Qed.

(** C9: [main] raises [NameError] for [_process_shuffler_yaml_file], a
    name bound neither in the module nor among the built-ins, and leaves
    the world as it found it; so running the file as a script always ends
    in an exception, whether its imports succeed or not. *)
Theorem main_raises_NameError (imports_succeed : bool) (w : W) :
  main W call w = (Raised (NameError "_process_shuffler_yaml_file"), w)
  /\ (exists e, run_script W call imports_succeed w = (Raised e, w))
  /\ (imports_succeed = true ->
      run_script W call imports_succeed w =
        (Raised (NameError "_process_shuffler_yaml_file"), w)).
Proof.
  assert (Hmain : main W call w =
                  (Raised (NameError "_process_shuffler_yaml_file"), w)).
  { unfold main. rewrite process_shuffler_yaml_file_unbound. reflexivity. }
  split; [exact Hmain|]. unfold run_script.
  destruct imports_succeed; simpl.
  - unfold bind at 1. simpl. rewrite Hmain. split; [now eexists | reflexivity].
  - split; [now eexists | discriminate].
Qed.

End ContainerUtilFacts.

(** ** tools/demo/generate_viz.py *)

Section FloatFacts.

(** A float that is neither a NaN nor below zero is at least zero. *)
Lemma not_below_zero (x : PrimFloat.float) :
  PrimFloat.is_nan x = false ->
  PrimFloat.ltb x 0 = false ->
  PrimFloat.leb 0 x = true.
Proof.
  unfold PrimFloat.is_nan.
  rewrite FloatAxioms.eqb_spec, ltb_spec, leb_spec.
  change (Prim2SF 0) with (S754_zero false).
  destruct (Prim2SF x) as [s|s| |s m e]; try destruct s;
    intros Hnan; unfold SFltb, SFleb; simpl; intros;
    first [congruence | discriminate Hnan].
Qed.

End FloatFacts.

Section GenerateVizFacts.

Import GenerateViz.

Variable int_of_string : string -> option Z.
Variable float_of_string : string -> option PrimFloat.float.

Local Abbreviation int := (int int_of_string).
Local Abbreviation float := (float float_of_string).
Local Abbreviation usage_of_row := (usage_of_row int_of_string float_of_string).
Local Abbreviation comprehension :=
  (comprehension int_of_string float_of_string).
Local Abbreviation reads_as := (reads_as int_of_string float_of_string).

(** Reading a number neither looks at the world nor changes it. *)
Lemma int_pure (s : string) :
  exists r : result Z, forall W (w : W), int s w = (r, w).
Proof.
  unfold GenerateViz.int. destruct (int_of_string s); now eexists.
Qed.

Lemma float_pure (s : string) :
  exists r : result PrimFloat.float, forall W (w : W), float s w = (r, w).
Proof.
  unfold GenerateViz.float. destruct (float_of_string s); now eexists.
Qed.

Lemma int_returned W (w w' : W) s n :
  int s w = (Returned n, w') -> w' = w /\ int s tt = (Returned n, tt).
Proof.
  destruct (int_pure s) as [r Hr]. rewrite !Hr.
  intros [= -> ->]. split; reflexivity.
Qed.

Lemma float_returned W (w w' : W) s x :
  float s w = (Returned x, w') ->
  w' = w /\ float s tt = (Returned x, tt).
Proof.
  destruct (float_pure s) as [r Hr]. rewrite !Hr.
  intros [= -> ->]. split; reflexivity.
Qed.

Lemma int_anywhere (s : string) (n : Z) :
  int s tt = (Returned n, tt) ->
  forall W (w : W), int s w = (Returned n, w).
Proof.
  destruct (int_pure s) as [r Hr]. rewrite Hr. intros [= ->]. intros W w. apply Hr.
Qed.

Lemma float_anywhere (s : string) (x : PrimFloat.float) :
  float s tt = (Returned x, tt) ->
  forall W (w : W), float s w = (Returned x, w).
Proof.
  destruct (float_pure s) as [r Hr]. rewrite Hr. intros [= ->]. intros W w. apply Hr.
Qed.

Lemma index_returned W (w w' : W) row i c :
  index row i w = (Returned c, w') -> w' = w /\ row !! i = Some c.
Proof.
  unfold index. destruct (row !! i); [|discriminate].
  intros [= -> ->]. split; reflexivity.
Qed.

Lemma index_at W (w : W) row i c :
  row !! i = Some c -> index row i w = (Returned c, w).
Proof. intros H. unfold index. now rewrite H. Qed.

(** Python's [max(x, 0)] is never below zero, and is at least zero unless
    [x] is a NaN. *)
Lemma max0_not_below (x : PrimFloat.float) : below_zero (max0 x) = false.
Proof.
  unfold max0. destruct (PrimFloat.ltb x 0) eqn:Hx; [reflexivity | exact Hx].
Qed.

Lemma max0_at_least (x : PrimFloat.float) :
  PrimFloat.is_nan x = false -> at_least_zero (max0 x) = true.
Proof.
  intros Hnan. unfold max0. destruct (PrimFloat.ltb x 0) eqn:Hx;
    [reflexivity | now apply not_below_zero].
Qed.

(** A row that yields a dictionary reads as three numbers, and the
    dictionary is built from them. *)
Lemma usage_of_row_returned W (w w' : W) row d :
  usage_of_row row w = (Returned d, w') ->
  w' = w /\
  exists h e s,
    reads_as row h e s
    /\ d = Usage h (max0 e) (max0 (e - c196 * s)%float) (e + c196 * s)%float.
Proof.
  intros H. unfold GenerateViz.usage_of_row in H.
  step_returned H. apply index_returned in Ha as [-> Hc0].
  step_returned H. apply int_returned in Ha as [-> Hh].
  step_returned H. apply index_returned in Ha as [-> Hc1].
  step_returned H. apply float_returned in Ha as [-> He].
  step_returned H. apply index_returned in Ha as [-> Hc1'].
  step_returned H. apply float_returned in Ha as [-> He'].
  step_returned H. apply index_returned in Ha as [-> Hc2].
  step_returned H. apply float_returned in Ha as [-> Hs].
  step_returned H. apply index_returned in Ha as [-> Hc1''].
  step_returned H. apply float_returned in Ha as [-> He''].
  step_returned H. apply index_returned in Ha as [-> Hc2'].
  step_returned H. apply float_returned in Ha as [-> Hs'].
  injection H as <- <-.
  rewrite Hc1 in Hc1', Hc1''. injection Hc1' as <-. injection Hc1'' as <-.
  rewrite Hc2 in Hc2'. injection Hc2' as <-.
  rewrite He in He', He''. injection He' as <-. injection He'' as <-.
  rewrite Hs in Hs'. injection Hs' as <-.
  split; [reflexivity|].
  eexists _, _, _. split; [|reflexivity].
  eexists _, _, _. repeat (split; [eassumption|]). eassumption.
Qed.

(** A row that reads as three numbers yields its dictionary, in any
    world and without changing it. *)
Lemma usage_of_row_reads W (w : W) row h e s :
  reads_as row h e s ->
  usage_of_row row w =
  (Returned (Usage h (max0 e) (max0 (e - c196 * s)%float)
                   (e + c196 * s)%float), w).
Proof.
  intros (c0 & c1 & c2 & H0 & H1 & H2 & Hh & He & Hs).
  unfold GenerateViz.usage_of_row.
  rewrite (bind_returned _ _ _ _ _ (index_at W w row 0 c0 H0)).
  rewrite (bind_returned _ _ _ _ _ (int_anywhere c0 h Hh W w)).
  rewrite (bind_returned _ _ _ _ _ (index_at W w row 1 c1 H1)).
  rewrite (bind_returned _ _ _ _ _ (float_anywhere c1 e He W w)).
  rewrite (bind_returned _ _ _ _ _ (index_at W w row 1 c1 H1)).
  rewrite (bind_returned _ _ _ _ _ (float_anywhere c1 e He W w)).
  rewrite (bind_returned _ _ _ _ _ (index_at W w row 2 c2 H2)).
  rewrite (bind_returned _ _ _ _ _ (float_anywhere c2 s Hs W w)).
  rewrite (bind_returned _ _ _ _ _ (index_at W w row 1 c1 H1)).
  rewrite (bind_returned _ _ _ _ _ (float_anywhere c1 e He W w)).
  rewrite (bind_returned _ _ _ _ _ (index_at W w row 2 c2 H2)).
  rewrite (bind_returned _ _ _ _ _ (float_anywhere c2 s Hs W w)).
  reflexivity.
Qed.

(** What the comprehension makes of the records read after line 1: one
    dictionary per record, in order. *)
Lemma comprehension_rows W (P : csv_record -> usage -> Prop) :
  (forall r (w w' : W) d,
     usage_of_row (cells r) w = (Returned d, w') -> w' = w /\ P r d) ->
  forall body n (w w' : W) data,
    1 <= n ->
    Forall (fun r => 1 <= lines r) body ->
    comprehension (read n body) w = (Returned data, w') ->
    Forall2 P body data.
Proof.
  intros HP body.
  induction body as [|r body IH]; intros n w w' data Hn Hlines H.
  - simpl in H. injection H as <- _. constructor.
  - apply Forall_cons in Hlines as [Hr Hlines]. simpl in H.
    replace (Nat.ltb 1 (n + lines r)) with true in H
      by (symmetry; apply Nat.ltb_lt; lia).
    step_returned H. apply HP in Ha as [-> Hd].
    step_returned H. apply IH in Ha; [|lia|exact Hlines].
    injection H as <- _. constructor; assumption.
Qed.

(** The header record, alone on line 1, is skipped. *)
Lemma comprehension_header W header body (w : W) :
  lines header = 1 ->
  comprehension (read 0 (header :: body)) w =
  comprehension (read 1 body) w.
Proof. intros Hh. simpl. rewrite Hh. reflexivity. Qed.

(** [data] in [buildUsageByHourJs] is the comprehension over the rows of
    the file, and the string returned is the table rendered from it. *)
Lemma buildUsageByHourJs_data (ToJSon : list usage -> string)
    (path : string) (file : list csv_record) (out : list string) :
  buildUsageByHourJs int_of_string float_of_string ToJSon path (Some file) out =
  match comprehension (read 0 file) out with
  | (Returned data, out') =>
      (Returned (Some (buildDataTableJs ToJSon data USAGE_BY_HOUR_JS_VAR_NAME)),
       out')
  | (Raised e, out') => (Raised e, out')
  end.
Proof.
  unfold buildUsageByHourJs, bind.
  destruct (comprehension (read 0 file) out) as [[data|e] out']; reflexivity.
Qed.

(** C10 (as the code has it): the header line is skipped and every
    record after it yields one dictionary, whose estimate is
    [max(row[1], 0)], whose low is [max(row[1] - 1.96*row[2], 0)] and
    whose high is [row[1] + 1.96*row[2]] as it stands, all in binary64.
    Estimate and low are never below 0, and they are at least 0 unless
    the number under the [max] is a NaN, which [max] hands on. With
    [int] and [float] reading the cells 3, -10 and 1 as these numbers,
    the file with the row 3,-10,1 has a dictionary whose high is below
    its low. *)
Theorem usage_rows_clamp_low_not_high W (w w' : W)
    (header : csv_record) (body : list csv_record) (data : list usage) :
  lines header = 1 ->
  Forall (fun r => 1 <= lines r) body ->
  comprehension (read 0 (header :: body)) w = (Returned data, w') ->
  int_of_string "3" = Some 3%Z ->
  float_of_string "-10" = Some (-10)%float ->
  float_of_string "1" = Some 1%float ->
  Forall2 (fun r d =>
      exists h e s,
        reads_as (cells r) h e s
        /\ hour d = h
        /\ estimate d = max0 e
        /\ low d = max0 (e - c196 * s)%float
        /\ high d = (e + c196 * s)%float
        /\ below_zero (estimate d) = false
        /\ below_zero (low d) = false
        /\ (PrimFloat.is_nan e = false -> at_least_zero (estimate d) = true)
        /\ (PrimFloat.is_nan (e - c196 * s)%float = false ->
            at_least_zero (low d) = true))
    body data
  /\ exists (file : list csv_record) (ds : list usage) (d : usage),
      comprehension (read 0 file) tt = (Returned ds, tt)
      /\ d ∈ ds /\ less (high d) (low d) = true.
Proof.
  intros Hheader Hlines H Hint3 Hminus10 Hone. split.
  - rewrite (comprehension_header _ _ _ _ Hheader) in H.
    eapply comprehension_rows; [|constructor|exact Hlines|exact H].
    clear. intros r w w' d Hd.
    apply usage_of_row_returned in Hd as (-> & h & e & s & Hread & ->).
    split; [reflexivity|]. exists h, e, s. simpl.
    repeat (split; [first [exact Hread | reflexivity | apply max0_not_below]|]).
    split; apply max0_at_least.
  - exists [CsvRecord ["hour"; "estimate"; "std_error"] 1;
            CsvRecord ["3"; "-10"; "1"] 1].
    assert (Hrow : reads_as ["3"; "-10"; "1"] 3 (-10)%float 1%float).
    { exists "3", "-10", "1". unfold GenerateViz.int, GenerateViz.float.
      rewrite Hint3, Hminus10, Hone. repeat split; reflexivity. }
    eexists _, _. split; [|split].
    + simpl. rewrite (bind_returned _ _ _ _ _
                        (usage_of_row_reads unit tt _ _ _ _ Hrow)).
      reflexivity.
    + apply list_elem_of_here.
    + vm_compute. reflexivity.
Qed.

End GenerateVizFacts.

Lemma usage_rows_clamp_low_not_high_witness :
  Forall2 (fun r d =>
      exists h e s,
        GenerateViz.reads_as GenerateViz.decimal_int GenerateViz.decimal_float
          (GenerateViz.cells r) h e s
        /\ GenerateViz.hour d = h
        /\ GenerateViz.estimate d = GenerateViz.max0 e
        /\ GenerateViz.low d =
           GenerateViz.max0 (e - GenerateViz.c196 * s)%float
        /\ GenerateViz.high d = (e + GenerateViz.c196 * s)%float
        /\ GenerateViz.below_zero (GenerateViz.estimate d) = false
        /\ GenerateViz.below_zero (GenerateViz.low d) = false
        /\ (PrimFloat.is_nan e = false ->
            GenerateViz.at_least_zero (GenerateViz.estimate d) = true)
        /\ (PrimFloat.is_nan (e - GenerateViz.c196 * s)%float = false ->
            GenerateViz.at_least_zero (GenerateViz.low d) = true))
    [GenerateViz.CsvRecord ["3"; "-10"; "1"] 1;
     GenerateViz.CsvRecord ["4"; " 10.5"; "2"] 1]
    [GenerateViz.Usage 3 GenerateViz.IntZero GenerateViz.IntZero
       (-10 + GenerateViz.c196 * 1)%float;
     GenerateViz.Usage 4 (GenerateViz.Float 10.5%float)
       (GenerateViz.Float (10.5 - GenerateViz.c196 * 2)%float)
       (10.5 + GenerateViz.c196 * 2)%float]
  /\ exists (file : list GenerateViz.csv_record)
            (ds : list GenerateViz.usage) (d : GenerateViz.usage),
      GenerateViz.comprehension GenerateViz.decimal_int
        GenerateViz.decimal_float (GenerateViz.read 0 file) tt =
      (Returned ds, tt)
      /\ d ∈ ds
      /\ GenerateViz.less (GenerateViz.high d) (GenerateViz.low d) = true.
Proof.
  apply (usage_rows_clamp_low_not_high GenerateViz.decimal_int
           GenerateViz.decimal_float unit tt tt
           (GenerateViz.CsvRecord ["hour"; "estimate"; "std_error"] 1)
           [GenerateViz.CsvRecord ["3"; "-10"; "1"] 1;
            GenerateViz.CsvRecord ["4"; " 10.5"; "2"] 1]).
  - reflexivity.
  - repeat constructor.
  - vm_compute. reflexivity.
  - vm_compute. reflexivity.
  - vm_compute. reflexivity.
  - vm_compute. reflexivity.
Defined.

(** C10 (as stated) fails: for the row 3,nan,1 the estimate and the low
    of the dictionary are the NaN that [max(nan, 0)] returns, and a NaN
    is not at least 0: the two values are not clamped at 0. *)
Lemma usage_rows_clamp_counterexample :
  GenerateViz.comprehension GenerateViz.decimal_int GenerateViz.decimal_float
    (GenerateViz.read 0
       [GenerateViz.CsvRecord ["hour"; "estimate"; "std_error"] 1;
        GenerateViz.CsvRecord ["3"; "nan"; "1"] 1]) tt =
  (Returned [GenerateViz.Usage 3 (GenerateViz.Float nan)
               (GenerateViz.Float nan) nan], tt)
  /\ GenerateViz.at_least_zero (GenerateViz.Float nan) = false.
Proof. split; vm_compute; reflexivity. Qed.

(** ** The configuration model *)

Section ConfigFacts.

Import Config.

Lemma is_probability_false (x : Q) :
  is_probability x = false <-> outside_unit_interval x.
Proof.
  unfold is_probability, outside_unit_interval.
  rewrite andb_false_iff, <- !not_true_iff_false, !Qle_bool_iff.
  split; (intros [H|H]; [left | right]);
    first [apply Qnot_le_lt, H | apply Qlt_not_le, H].
Qed.

Lemma is_positive_false (n : Z) : is_positive n = false <-> (n <= 0)%Z.
Proof. unfold is_positive. rewrite Z.ltb_ge. reflexivity. Qed.

(** The checks of the constructor fail exactly on the rejected
    parameters. *)
Lemma make_config_raised (field_index : nat) (mech : Mechanism) :
  make_config field_index mech = Raised InvalidConfig <-> rejected mech.
Proof.
  unfold make_config, rejected. destruct mech as [r|fp].
  - destruct (is_probability (f r)) eqn:Hf; simpl.
    2:{ apply is_probability_false in Hf. split; [tauto | reflexivity]. }
    destruct (is_probability (p r)) eqn:Hp; simpl.
    2:{ apply is_probability_false in Hp. split; [tauto | reflexivity]. }
    destruct (is_probability (q r)) eqn:Hq; simpl.
    2:{ apply is_probability_false in Hq. split; [tauto | reflexivity]. }
    destruct (is_positive (k r)) eqn:Hk; simpl.
    2:{ apply is_positive_false in Hk. split; [tauto | reflexivity]. }
    destruct (is_positive (h r)) eqn:Hh; simpl.
    2:{ apply is_positive_false in Hh. split; [tauto | reflexivity]. }
    destruct (is_positive (m r)) eqn:Hm; simpl.
    2:{ apply is_positive_false in Hm. split; [tauto | reflexivity]. }
    assert (Hf' : ~ outside_unit_interval (f r))
      by (rewrite <- is_probability_false; congruence).
    assert (Hp' : ~ outside_unit_interval (p r))
      by (rewrite <- is_probability_false; congruence).
    assert (Hq' : ~ outside_unit_interval (q r))
      by (rewrite <- is_probability_false; congruence).
    apply Z.ltb_lt in Hk, Hh, Hm.
    destruct (Z.leb_spec (h r) (k r)) as [Hle|Hgt].
    + split; [discriminate|]. intros [H|[H|H]]; [tauto | lia | lia].
    + split; [|reflexivity]. intros _. right. right. lia.
  - destruct (is_positive (t fp)) eqn:Ht.
    + apply Z.ltb_lt in Ht. split; [discriminate | lia].
    + apply is_positive_false in Ht. split; [intros _; exact Ht | reflexivity].
Qed.

Lemma make_config_returned (field_index : nat) (mech : Mechanism) :
  make_config field_index mech = Returned (Build_config field_index mech)
  <-> ~ rejected mech.
Proof.
  rewrite <- (make_config_raised field_index). unfold make_config.
  destruct (match mech with RAPPOR _ => _ | Forculus _ => _ end).
  - split; [intros _; discriminate | reflexivity].
  - split; [discriminate | intros H; now destruct H].
Qed.

(** C6: the constructor fails with [InvalidConfig] exactly when a
    probability is outside [0,1], or one of k, h, m, t is not positive, or
    h > k, and returns the configuration otherwise. So f = 1.5 and t = 0
    are rejected whatever the other parameters are, while f = 0, f = 1 and
    t = 1 are accepted wherever the other parameters are. *)
Theorem make_config_rejects_exactly (field_index : nat) (mech : Mechanism) :
  (make_config field_index mech = Raised InvalidConfig <-> rejected mech)
  /\ (make_config field_index mech = Returned (Build_config field_index mech)
      <-> ~ rejected mech)
  /\ (forall k h p q m,
        make_config field_index (RAPPOR (Rappor k h (15 # 10) p q m)) =
        Raised InvalidConfig)
  /\ (forall key_derivation,
        make_config field_index (Forculus (Forculus_params 0 key_derivation)) =
        Raised InvalidConfig)
  /\ (forall k h f p q m edge,
        edge = 0%Q \/ edge = 1%Q ->
        make_config field_index (RAPPOR (Rappor k h f p q m)) =
          Returned (Build_config field_index (RAPPOR (Rappor k h f p q m))) ->
        make_config field_index (RAPPOR (Rappor k h edge p q m)) =
          Returned (Build_config field_index (RAPPOR (Rappor k h edge p q m))))
  /\ (forall key_derivation,
        make_config field_index (Forculus (Forculus_params 1 key_derivation)) =
        Returned (Build_config field_index
                    (Forculus (Forculus_params 1 key_derivation)))).
Proof.
  split; [apply make_config_raised|]. split; [apply make_config_returned|].
  split; [|split; [|split]].
  - intros k h p q m. reflexivity.
  - intros kd. reflexivity.
  - intros k h f p q m edge Hedge.
    rewrite !(make_config_returned field_index). simpl.
    unfold outside_unit_interval.
    intros Hok [[Hf|Hpq]|Hrest]; [|tauto|tauto].
    destruct Hedge as [-> | ->]; destruct Hf as [Hf|Hf]; discriminate Hf.
  - intros kd. reflexivity.
Qed.

End ConfigFacts.

(** ** The Bloom-filter mapper *)

Section MapperFacts.

Import Rappor.

Variable hashIndex : nat -> nat -> string -> nat.

Lemma length_zeros k : length (zeros k) = k.
Proof. apply length_replicate. Qed.

Lemma length_single_bit k i : length (single_bit k i) = k.
Proof. unfold single_bit. now rewrite length_fmap, length_seq. Qed.

Lemma length_bv_or a b : length (bv_or a b) = Nat.min (length a) (length b).
Proof. apply length_zip_with. Qed.

Lemma lookup_single_bit k i j :
  j < k -> single_bit k i !! j = Some (bool_decide (j = i)).
Proof.
  intros Hj. unfold single_bit.
  rewrite list_lookup_fmap, lookup_seq_lt by exact Hj. reflexivity.
Qed.

Lemma length_lit k cohort value js :
  length (lit hashIndex k cohort value js) = k.
Proof.
  induction js as [|j js IH]; simpl.
  - apply length_zeros.
  - rewrite length_bv_or, length_single_bit, IH. apply Nat.min_id.
Qed.

(** Bit [i] is lit exactly when one of the hash functions lands on it. *)
Lemma lookup_lit k cohort value js i :
  i < k ->
  lit hashIndex k cohort value js !! i =
  Some (bool_decide (Exists (fun j => hashIndex cohort j value mod k = i) js)).
Proof.
  intros Hi. induction js as [|j js IH]; simpl.
  - unfold zeros. rewrite lookup_replicate_2 by exact Hi. reflexivity.
  - unfold bv_or. rewrite lookup_zip_with, lookup_single_bit, IH by exact Hi.
    simpl. f_equal.
    rewrite (bool_decide_ext _ _ (Exists_cons _ j js)).
    rewrite bool_decide_or.
    f_equal. apply bool_decide_ext. split; congruence.
Qed.

Lemma length_mapToBloom value cohort config :
  length (mapToBloom hashIndex value cohort config) =
  Z.to_nat (Config.k config).
Proof. apply length_lit. Qed.

(** Bit [i] of the Bloom filter is lit exactly when one of the [h] hash
    functions maps the value to [i]. *)
Lemma lookup_mapToBloom value cohort config i :
  i < Z.to_nat (Config.k config) ->
  mapToBloom hashIndex value cohort config !! i =
  Some (bool_decide
          (Exists (fun j => hashIndex cohort j value
                              mod Z.to_nat (Config.k config) = i)
                  (seq 0 (Z.to_nat (Config.h config))))).
Proof. apply lookup_lit. Qed.

End MapperFacts.

(** ** The RAPPOR encoder *)

Section EncoderFacts.

Import Rappor.

Variable hashIndex : nat -> nat -> string -> nat.
Variable draw : nat -> Q.

Local Abbreviation encode := (encode hashIndex draw).
Local Abbreviation run := (run hashIndex draw).

(** The permanent response always returns; it leaves what it returns in
    the cache under [key], keeps every cached response, and samples only
    when the key was not cached. *)
Lemma permanent_returns (key : cache_key) (f : Q) (B : BitVector)
    (s : run_state) :
  exists B' s1,
    permanent draw key f B s = (Returned B', s1)
    /\ cached key s1 = Some B'
    /\ drawn s <= drawn s1
    /\ (forall key' X, cached key' s = Some X -> cached key' s1 = Some X)
    /\ (cached key s = None ->
        B' = zip_with (prr_bit f) (draws_between draw (drawn s) (length B)) B).
Proof.
  unfold permanent, cached. destruct (cache s !! key) as [B0|] eqn:Hkey.
  - exists B0, s. repeat split; auto. discriminate.
  - eexists _, _. split; [reflexivity|]. simpl.
    split; [apply lookup_insert_eq|]. split; [lia|]. split; [|reflexivity].
    intros key' X HX. destruct (decide (key = key')) as [<-|Hne].
    + congruence.
    + now rewrite lookup_insert_ne.
Qed.

(** At f = 0 the permanent response is the Bloom filter bit, and at
    p = 0, q = 1 the instantaneous response is the permanent one. *)
Lemma prr_bit_f0 (u : Q) (b : bool) : (0 <= u)%Q -> prr_bit 0 u b = b.
Proof.
  intros Hu. unfold prr_bit.
  assert (H0 : Qle_bool 0 u = true) by now apply Qle_bool_iff.
  assert (H2 : Qle_bool (0 / 2) u = true).
  { apply Qle_bool_iff. unfold Qle in *. simpl in *. lia. }
  now rewrite H2, H0.
Qed.

Lemma irr_bit_p0_q1 (u : Q) (b' : bool) :
  (0 <= u)%Q -> (u < 1)%Q -> irr_bit 0 1 u b' = b'.
Proof.
  intros H0 H1. unfold irr_bit. destruct b'.
  - destruct (Qle_bool 1 u) eqn:Hle; [|reflexivity].
    apply Qle_bool_iff in Hle. now apply Qle_not_lt in Hle.
  - assert (Hle : Qle_bool 0 u = true) by now apply Qle_bool_iff.
    now rewrite Hle.
Qed.

Lemma field_at_returned entry fieldIndex s v s' :
  field_at entry fieldIndex s = (Returned v, s') -> s' = s.
Proof.
  unfold field_at. destruct (entry !! fieldIndex) as [[n x]|]; [|discriminate].
  now intros [= _ <-].
Qed.

(** What one call that returns has done. *)
Lemma encode_returned entry fieldIndex secret cohort config s r s' :
  encode entry fieldIndex secret cohort config s = (Returned r, s') ->
  exists B',
    cached (secret, fieldIndex, cohort) s' = Some B'
    /\ (forall key X, cached key s = Some X -> cached key s' = Some X)
    /\ bits r = zip_with (irr_bit (Config.p config) (Config.q config))
                  (draws_between draw (drawn s' - length B') (length B')) B'
    /\ drawn s + length B' <= drawn s'
    /\ Rappor.cohort r = cohort.
Proof.
  intros H. unfold Rappor.encode in H.
  step_returned H. apply field_at_returned in Ha as ->.
  destruct (permanent_returns (secret, fieldIndex, cohort) (Config.f config)
              (mapToBloom hashIndex a cohort config) s)
    as (B' & s1 & Hperm & Hcached & Hdrawn & Hkeep & _).
  rewrite (bind_returned _ _ _ _ _ Hperm) in H.
  unfold instantaneous, bind, draws, ret in H. injection H as <- <-.
  exists B'. simpl. unfold cached in *. simpl.
  repeat split; auto; [|lia].
  unfold draws_between. now rewrite Nat.add_sub.
Qed.

Lemma run_cons (c : call) (rest : list call) (s : run_state) :
  run (c :: rest) s =
  match encode (c_entry c) (c_field c) (c_secret c) (c_cohort c) (c_config c) s
  with
  | (Returned r, s1) =>
      match run rest s1 with
      | (Returned rs, s2) => (Returned ((r, s1) :: rs), s2)
      | (Raised e, s2) => (Raised e, s2)
      end
  | (Raised e, s1) => (Raised e, s1)
  end.
Proof.
  simpl. unfold bind at 1.
  destruct (encode _ _ _ _ _ s) as [[r|e] s1]; [|reflexivity].
  unfold bind. destruct (Rappor.run hashIndex draw rest s1) as [[rs|e] s2];
    reflexivity.
Qed.

Lemma run_cons_returned c rest s outs s_end :
  run (c :: rest) s = (Returned outs, s_end) ->
  exists r s1 rs,
    encode (c_entry c) (c_field c) (c_secret c) (c_cohort c) (c_config c) s =
      (Returned r, s1)
    /\ run rest s1 = (Returned rs, s_end)
    /\ outs = (r, s1) :: rs.
Proof.
  rewrite run_cons.
  destruct (encode _ _ _ _ _ s) as [[r|e] s1] eqn:Henc; [|discriminate].
  destruct (run rest s1) as [[rs|e] s2] eqn:Hrest; [|discriminate].
  intros [= <- <-]. now exists r, s1, rs.
Qed.

(** Once a key is cached, every later call with that key reports from
    the cached response, with draws taken after the point of caching. *)
Lemma run_reuses_cached (key : cache_key) (B' : BitVector) :
  forall rest s outs s_end,
    run rest s = (Returned outs, s_end) ->
    cached key s = Some B' ->
    forall j cj rj sj,
      rest !! j = Some cj -> outs !! j = Some (rj, sj) -> key_of cj = key ->
      cached key sj = Some B'
      /\ bits rj =
         zip_with (irr_bit (Config.p (c_config cj)) (Config.q (c_config cj)))
           (draws_between draw (drawn sj - length B') (length B')) B'
      /\ drawn s + length B' <= drawn sj.
Proof.
  induction rest as [|c rest IH]; intros s outs s_end Hrun Hc j cj rj sj Hj Ho Hk.
  - discriminate Hj.
  - apply run_cons_returned in Hrun as (r & s1 & rs & Henc & Hrest & ->).
    apply encode_returned in Henc as (B1 & Hc1 & Hkeep & Hbits & Hdrawn & _).
    destruct j as [|j]; simpl in Hj, Ho.
    + injection Hj as ->. injection Ho as -> ->.
      unfold key_of in Hk. rewrite Hk in Hc1.
      rewrite (Hkeep _ _ Hc) in Hc1. injection Hc1 as <-.
      split; [now apply Hkeep|]. split; [exact Hbits | exact Hdrawn].
    + destruct (IH s1 rs s_end Hrest (Hkeep _ _ Hc) j cj rj sj Hj Ho Hk)
        as (H1 & H2 & H3).
      split; [exact H1|]. split; [exact H2 | lia].
Qed.

(** C4: within one run, two encodings with the same (secret, field,
    cohort) key report from one and the same permanent response [B'],
    the one the cache holds for the key after each of the two calls;
    and each reported vector is the instantaneous response to [B'] under
    draws of the call's own: the draws of the later call all come after
    those of the earlier one. *)
Theorem prr_cached_irr_fresh (calls : list call) (s0 s_end : run_state)
    (outs : list (EncodedReport * run_state)) (i j : nat) (ci cj : call)
    (ri rj : EncodedReport) (si sj : run_state) :
  run calls s0 = (Returned outs, s_end) ->
  i < j ->
  calls !! i = Some ci -> calls !! j = Some cj ->
  outs !! i = Some (ri, si) -> outs !! j = Some (rj, sj) ->
  key_of ci = key_of cj ->
  exists B' : BitVector,
    cached (key_of ci) si = Some B' /\ cached (key_of cj) sj = Some B'
    /\ bits ri =
       zip_with (irr_bit (Config.p (c_config ci)) (Config.q (c_config ci)))
         (draws_between draw (drawn si - length B') (length B')) B'
    /\ bits rj =
       zip_with (irr_bit (Config.p (c_config cj)) (Config.q (c_config cj)))
         (draws_between draw (drawn sj - length B') (length B')) B'
    /\ length B' <= drawn si
    /\ drawn si <= drawn sj - length B'.
Proof.
  revert s0 outs i j.
  induction calls as [|c calls IH]; intros s0 outs i j Hrun Hij Hi Hj Hoi Hoj Hk.
  - discriminate Hi.
  - apply run_cons_returned in Hrun as (r & s1 & rs & Henc & Hrest & ->).
    destruct j as [|j]; [lia|]. simpl in Hj, Hoj.
    destruct i as [|i]; simpl in Hi, Hoi.
    + injection Hi as ->. injection Hoi as -> ->.
      apply encode_returned in Henc as (B' & Hc & _ & Hbits & Hdrawn & _).
      fold (key_of ci) in Hc.
      destruct (run_reuses_cached (key_of ci) B' calls si rs s_end Hrest Hc
                  j cj rj sj Hj Hoj (eq_sym Hk)) as (H1 & H2 & H3).
      exists B'. rewrite <- Hk.
      repeat (split; [first [assumption | lia]|]). lia.
    + apply (IH s1 rs i j); [exact Hrest | lia | assumption..].
Qed.

End EncoderFacts.

Lemma prr_cached_irr_fresh_witness :
  (exists B' : list bool,
     Rappor.cached (Rappor.key_of Rappor.demo_alice) (Rappor.demo_state 0) =
       Some B'
     /\ Rappor.cached (Rappor.key_of Rappor.demo_alice) (Rappor.demo_state 2) =
       Some B'
     /\ Rappor.bits (Rappor.demo_report 0) =
        zip_with (Rappor.irr_bit (1 # 4) (3 # 4))
          (Rappor.draws_between Rappor.demo_draw
             (Rappor.drawn (Rappor.demo_state 0) - length B') (length B')) B'
     /\ Rappor.bits (Rappor.demo_report 2) =
        zip_with (Rappor.irr_bit (1 # 4) (3 # 4))
          (Rappor.draws_between Rappor.demo_draw
             (Rappor.drawn (Rappor.demo_state 2) - length B') (length B')) B'
     /\ length B' <= Rappor.drawn (Rappor.demo_state 0)
     /\ Rappor.drawn (Rappor.demo_state 0) <=
        Rappor.drawn (Rappor.demo_state 2) - length B')
  /\ Rappor.bits (Rappor.demo_report 0) <> Rappor.bits (Rappor.demo_report 2).
Proof.
  split.
  - apply (prr_cached_irr_fresh Rappor.demo_hashIndex Rappor.demo_draw
             [Rappor.demo_alice; Rappor.demo_bob; Rappor.demo_alice]
             (Rappor.RunState ∅ 0) (snd Rappor.demo_run) Rappor.demo_outs
             0 2 Rappor.demo_alice Rappor.demo_alice
             (Rappor.demo_report 0) (Rappor.demo_report 2)
             (Rappor.demo_state 0) (Rappor.demo_state 2)).
    + vm_compute. reflexivity.
    + lia.
    + reflexivity.
    + reflexivity.
    + vm_compute. reflexivity.
    + vm_compute. reflexivity.
    + reflexivity.
  - vm_compute. discriminate.
Defined.

(** * Further properties of the scripts *)

(** ** randomizers/help_query_randomizer.py: batches and failures *)

Section HelpQueryBatches.

Import HelpQuery.

(** What the loop has written when it stops, whether at the end of the
    entries or at the first one without a help query. *)
Lemma randomize_written (entries : list Entry) :
  forall f, exists rows : list Row,
    snd (randomize entries f) = f ++ rows
    /\ length rows <= length entries
    /\ Forall (fun row => length row = 1) rows.
Proof.
  induction entries as [|e entries IH]; intros f.
  - exists []. rewrite randomize_nil. simpl. rewrite app_nil_r. repeat split; auto.
  - rewrite randomize_cons. destruct (field "help_query" e) as [q|].
    + destruct (IH (f ++ [[q]])) as (rows & Hrows & Hlen & Hcells).
      exists ([q] :: rows). rewrite Hrows, <- app_assoc. simpl.
      split; [reflexivity|]. split; [lia|]. constructor; [reflexivity | exact Hcells].
    + exists []. simpl. rewrite app_nil_r. split; [reflexivity|]. split; [lia|constructor].
Qed.

(** The loop over [es1 ++ es2] is the loop over [es1] followed by the loop
    over [es2], on one open stream. *)
Lemma randomize_split (es1 es2 : list Entry) :
  forall f, randomize (es1 ++ es2) f = (randomize es1 ;; randomize es2) f.
Proof.
  induction es1 as [|e es1 IH]; intros f.
  - reflexivity.
  - simpl app. rewrite randomize_cons. unfold bind. rewrite randomize_cons.
    destruct (field "help_query" e) as [q|]; [|reflexivity].
    rewrite IH. reflexivity.
Qed.

(** X2: the run stops at the first entry without a help query: the rows
    of the entries before it stay written, and nothing is written for it
    or for the entries after it. *)
Theorem randomize_stops_at_first_bad (good : list Entry) (bad : Entry)
    (rest : list Entry) (f : csv_file) :
  Forall is_entry good ->
  ~ is_entry bad ->
  randomize (good ++ bad :: rest) f =
  (Raised (AttributeError "help_query"), f ++ (row_of <$> good)).
Proof.
  intros Hgood Hbad. rewrite randomize_split. unfold bind.
  rewrite (randomize_rows good Hgood), randomize_cons.
  destruct (field "help_query" bad) as [q|] eqn:Hq; [|reflexivity].
  destruct Hbad. now exists q.
Qed.

Lemma randomize_stops_at_first_bad_witness :
  randomize
    ([[("user_id", "1"); ("help_query", "wifi")]]
     ++ [("user_id", "2")] :: [[("user_id", "3"); ("help_query", "pin")]])
    [["earlier"]] =
  (Raised (AttributeError "help_query"),
   [["earlier"]] ++ (row_of <$> [[("user_id", "1"); ("help_query", "wifi")]])).
Proof.
  apply (randomize_stops_at_first_bad
           [[("user_id", "1"); ("help_query", "wifi")]]
           [("user_id", "2")]
           [[("user_id", "3"); ("help_query", "pin")]]
           [["earlier"]]).
  - repeat constructor. unfold is_entry. simpl. eauto.
  - unfold is_entry. simpl. intros [q Hq]. discriminate Hq.
Defined.

(** X3: the run only appends to the stream: whatever the entries and
    whether it returns or raises, the rows that were there stay first, at
    most one row per entry is added, and every added row has one cell. *)
Theorem randomize_appends_only (entries : list Entry) (f : csv_file) :
  exists rows : list Row,
    snd (randomize entries f) = f ++ rows
    /\ length rows <= length entries
    /\ Forall (fun row => length row = 1) rows.
Proof. apply randomize_written. Qed.

End HelpQueryBatches.

(** ** config/config_parser/test_stable_config_parser.py: when the test
       passes and how it fails *)

Section StableConfigParserOutcomes.

Import StableConfigParser.

Variables CONFIG_PARSER_BIN CONFIG_DIR : string.
Variable os_run : nat -> list string -> process.

Local Abbreviation cmd := (cmd CONFIG_PARSER_BIN CONFIG_DIR).
Local Abbreviation check_output := (check_output os_run).
Local Abbreviation main := (main CONFIG_PARSER_BIN CONFIG_DIR os_run).

Lemma check_output_not_started c w :
  os_run (length (invoked w)) c = NotStarted ->
  check_output c w = (Raised OSError, World (invoked w ++ [c]) (printed w)).
Proof. intros Hrun. unfold StableConfigParser.check_output. now rewrite Hrun. Qed.

Lemma check_output_exit_nonzero c w rc out :
  os_run (length (invoked w)) c = Exited rc out -> rc <> 0%Z ->
  check_output c w =
  (Raised (CalledProcessError rc out), World (invoked w ++ [c]) (printed w)).
Proof.
  intros Hrun Hrc. unfold StableConfigParser.check_output. rewrite Hrun.
  destruct (Z.eqb_spec rc 0); [contradiction | reflexivity].
Qed.

(** The first run of the parser decides how [main] goes on. *)
Lemma main_first_run w :
  main w =
  match os_run (length (invoked w)) cmd with
  | NotStarted => (Raised OSError, World (invoked w ++ [cmd]) (printed w))
  | Exited rc1 out1 =>
      if Z.eqb rc1 0 then
        match os_run (S (length (invoked w))) cmd with
        | NotStarted =>
            (Raised OSError, World (invoked w ++ [cmd; cmd]) (printed w))
        | Exited rc2 out2 =>
            if Z.eqb rc2 0 then
              if String.eqb out1 out2
              then (Returned 0%Z,
                    World (invoked w ++ [cmd; cmd]) (printed w ++ ["PASS"]))
              else (Raised different_outputs,
                    World (invoked w ++ [cmd; cmd]) (printed w))
            else (Raised (CalledProcessError rc2 out2),
                  World (invoked w ++ [cmd; cmd]) (printed w))
        end
      else (Raised (CalledProcessError rc1 out1),
            World (invoked w ++ [cmd]) (printed w))
  end.
Proof.
  unfold StableConfigParser.main. unfold bind at 1.
  unfold StableConfigParser.check_output at 1.
  destruct (os_run (length (invoked w)) cmd) as [|rc1 out1]; [reflexivity|].
  destruct (Z.eqb rc1 0); [|reflexivity].
  unfold bind at 1. unfold StableConfigParser.check_output at 1. simpl.
  rewrite length_app, Nat.add_1_r, <- app_assoc. simpl.
  destruct (os_run (S (length (invoked w))) cmd) as [|rc2 out2]; [reflexivity|].
  destruct (Z.eqb rc2 0); [|reflexivity].
  unfold bind, StableConfigParser.print, ret, raise. simpl.
  destruct (String.eqb out1 out2); reflexivity.
Qed.

(** X4: the test passes, returning 0 after printing PASS, exactly when
    both runs of the parser exit with status 0 and wrote the same bytes;
    in every other case it raises and prints nothing. *)
Theorem main_passes_iff (w : world) :
  (fst (main w) = Returned 0%Z <->
   exists out,
     os_run (length (invoked w)) cmd = Exited 0 out
     /\ os_run (S (length (invoked w))) cmd = Exited 0 out)
  /\ match fst (main w) with
     | Returned z => z = 0%Z /\ printed (snd (main w)) = printed w ++ ["PASS"]
     | Raised _ => printed (snd (main w)) = printed w
     end.
Proof.
  rewrite main_first_run.
  destruct (os_run (length (invoked w)) cmd) as [|rc1 out1]; simpl.
  { split; [|reflexivity]. split; [discriminate | intros (out & H & _); discriminate H]. }
  destruct (Z.eqb_spec rc1 0) as [->|Hrc1]; simpl.
  2:{ split; [|reflexivity]. split; [discriminate|].
      intros (out & [= H _] & _). contradiction. }
  destruct (os_run (S (length (invoked w))) cmd) as [|rc2 out2]; simpl.
  { split; [|reflexivity]. split; [discriminate | intros (out & _ & H); discriminate H]. }
  destruct (Z.eqb_spec rc2 0) as [->|Hrc2]; simpl.
  2:{ split; [|reflexivity]. split; [discriminate|].
      intros (out & _ & [= H _]). contradiction. }
  destruct (String.eqb_spec out1 out2) as [->|Hne]; simpl.
  - split; [|split; reflexivity]. split; [intros _; now exists out2 | reflexivity].
  - split; [|reflexivity]. split; [discriminate|].
    intros (out & [= ->] & [= ->]). contradiction.
Qed.

(** X5: when the first run of the parser exits with a non-zero status,
    [main] raises the [CalledProcessError] of that run, with its status
    and output, and the parser is not run a second time. *)
Theorem main_stops_after_failed_run (w : world) (rc : Z) (out : string) :
  os_run (length (invoked w)) cmd = Exited rc out ->
  rc <> 0%Z ->
  main w = (Raised (CalledProcessError rc out),
            World (invoked w ++ [cmd]) (printed w)).
Proof.
  intros Hrun Hrc. rewrite main_first_run, Hrun.
  destruct (Z.eqb_spec rc 0); [contradiction | reflexivity].
Qed.

(** X6: when the first run exits with status 0 and the second with a
    non-zero status, [main] raises the [CalledProcessError] of the second
    run: the outputs are not compared, even if they are equal. *)
Theorem main_second_run_fails (w : world) (out1 : string) (rc : Z)
    (out2 : string) :
  os_run (length (invoked w)) cmd = Exited 0 out1 ->
  os_run (S (length (invoked w))) cmd = Exited rc out2 ->
  rc <> 0%Z ->
  main w = (Raised (CalledProcessError rc out2),
            World (invoked w ++ [cmd; cmd]) (printed w)).
Proof.
  intros H1 H2 Hrc. rewrite main_first_run, H1, H2. simpl.
  destruct (Z.eqb_spec rc 0); [contradiction | reflexivity].
Qed.

End StableConfigParserOutcomes.

Lemma main_stops_after_failed_run_witness :
  StableConfigParser.main "out/config_parser" "third_party/config"
    (fun n _ => StableConfigParser.Exited (Z.of_nat n + 2) "usage")
    (StableConfigParser.World [] ["before"]) =
  (Raised (CalledProcessError 2 "usage"),
   StableConfigParser.World
     ([] ++ [StableConfigParser.cmd "out/config_parser" "third_party/config"])
     ["before"]).
Proof.
  apply (main_stops_after_failed_run "out/config_parser" "third_party/config"
           (fun n _ => StableConfigParser.Exited (Z.of_nat n + 2) "usage")
           (StableConfigParser.World [] ["before"]) 2 "usage").
  - reflexivity.
  - discriminate.
Defined.

Lemma main_second_run_fails_witness :
  StableConfigParser.main "out/config_parser" "third_party/config"
    (fun n _ => StableConfigParser.Exited (Z.of_nat n) "same")
    (StableConfigParser.World [] []) =
  (Raised (CalledProcessError 1 "same"),
   StableConfigParser.World
     ([] ++ [StableConfigParser.cmd "out/config_parser" "third_party/config";
             StableConfigParser.cmd "out/config_parser" "third_party/config"])
     []).
Proof.
  apply (main_second_run_fails "out/config_parser" "third_party/config"
           (fun n _ => StableConfigParser.Exited (Z.of_nat n) "same")
           (StableConfigParser.World [] []) "same" 1 "same").
  - reflexivity.
  - reflexivity.
  - discriminate.
Defined.

(** ** tools/demo/generate_viz.py: well-formed files, long headers and the
       output file *)

Section GenerateVizFiles.

Import GenerateViz.

Variable int_of_string : string -> option Z.
Variable float_of_string : string -> option PrimFloat.float.

Local Abbreviation usage_of_row := (usage_of_row int_of_string float_of_string).
Local Abbreviation comprehension :=
  (comprehension int_of_string float_of_string).
Local Abbreviation reads_as := (reads_as int_of_string float_of_string).

(** On a file whose records after the one-line header all read as
    numbers, the comprehension returns one dictionary per record. *)
Lemma comprehension_reads W (w : W) :
  forall body n,
    1 <= n ->
    Forall (fun r => 1 <= lines r) body ->
    Forall (fun r => exists h e s, reads_as (cells r) h e s) body ->
    exists data,
      comprehension (read n body) w = (Returned data, w)
      /\ length data = length body.
Proof.
  induction body as [|r body IH]; intros n Hn Hlines Hreads.
  - exists []. split; reflexivity.
  - apply Forall_cons in Hlines as [Hr Hlines].
    apply Forall_cons in Hreads as [(h & e & s & Hread) Hreads].
    destruct (IH (n + lines r)) as (data & Hdata & Hlen); [lia|assumption..|].
    eexists (_ :: data). simpl.
    replace (Nat.ltb 1 (n + lines r)) with true
      by (symmetry; apply Nat.ltb_lt; lia).
    rewrite (bind_returned _ _ _ _ _
               (usage_of_row_reads _ _ W w _ h e s Hread)).
    rewrite (bind_returned _ _ _ _ _ Hdata).
    split; [reflexivity | simpl; now rewrite Hlen].
Qed.

(** X9: on a file with a one-line header whose other records all read
    as numbers the comprehension does not fail: it returns one dictionary
    per record after the header, and none at all for a file that has only
    the header. *)
Theorem comprehension_returns W (w : W) (header : csv_record)
    (body : list csv_record) :
  lines header = 1 ->
  Forall (fun r => 1 <= lines r) body ->
  Forall (fun r => exists h e s, reads_as (cells r) h e s) body ->
  exists data,
    comprehension (read 0 (header :: body)) w = (Returned data, w)
    /\ length data = length body
    /\ (body = [] -> data = []).
Proof.
  intros Hheader Hlines Hreads.
  destruct (comprehension_reads W w body 1) as (data & Hdata & Hlen); auto.
  exists data. rewrite (comprehension_header _ _ _ _ _ _ Hheader).
  split; [exact Hdata|]. split; [exact Hlen|].
  intros ->. now destruct data.
Qed.

(** A sequence of steps that leave the world alone leaves it alone. *)
Lemma bind_same_world {W A B} (c : py W A) (k : A -> py W B) :
  (forall w, snd (c w) = w) -> (forall a w, snd (k a w) = w) ->
  forall w, snd (bind c k w) = w.
Proof.
  intros Hc Hk w. unfold bind. specialize (Hc w).
  destruct (c w) as [[a|e] w1]; simpl in Hc; subst w1; [apply Hk | reflexivity].
Qed.

Lemma index_same_world W row i (w : W) : snd (index row i w) = w.
Proof. unfold index. now destruct (row !! i). Qed.

Lemma int_same_world W s (w : W) : snd (int int_of_string s w) = w.
Proof. unfold int. now destruct (int_of_string s). Qed.

Lemma float_same_world W s (w : W) : snd (float float_of_string s w) = w.
Proof. unfold float. now destruct (float_of_string s). Qed.

Lemma usage_of_row_same_world W row (w : W) : snd (usage_of_row row w) = w.
Proof.
  revert w. unfold GenerateViz.usage_of_row.
  repeat (apply bind_same_world;
          [first [apply index_same_world | apply int_same_world
                 | apply float_same_world] | intros ?]).
  reflexivity.
Qed.

Lemma comprehension_same_world W rows (w : W) :
  snd (comprehension rows w) = w.
Proof.
  revert w. induction rows as [|[line_num row] rows IH]; intros w; [reflexivity|].
  simpl. destruct (Nat.ltb 1 line_num); [|apply IH].
  revert w. apply bind_same_world; [apply usage_of_row_same_world|].
  intros d. apply bind_same_world; [apply IH | reflexivity].
Qed.

Lemma usage_of_row_raises W (w : W) row :
  ~ (exists h e s, reads_as row h e s) ->
  exists e, usage_of_row row w = (Raised e, w).
Proof.
  intros Hno. pose proof (usage_of_row_same_world W row w) as Hw.
  destruct (usage_of_row row w) as [[d|e] w'] eqn:Hrow; simpl in Hw; subst w'.
  - destruct Hno.
    apply usage_of_row_returned in Hrow as (_ & h & e & s & Hr & _).
    now exists h, e, s.
  - now exists e.
Qed.

(** X19: the filter [reader.line_num > 1] skips the header only when it
    ends on line 1. A first record that spans two or more lines (a quoted
    cell with a line break) is read as data; when [int] and [float] do
    not read three numbers from it, as from a header of names, the
    comprehension raises, whatever the records after it. *)
Theorem comprehension_long_header W (w : W) (header : csv_record)
    (body : list csv_record) :
  2 <= lines header ->
  ~ (exists h e s, reads_as (cells header) h e s) ->
  exists e, comprehension (read 0 (header :: body)) w = (Raised e, w).
Proof.
  intros Hlines Hno. simpl.
  replace (Nat.ltb 1 (lines header)) with true
    by (symmetry; apply Nat.ltb_lt; lia).
  destruct (usage_of_row_raises W w (cells header) Hno) as [e He].
  exists e. unfold bind. now rewrite He.
Qed.

End GenerateVizFiles.

Lemma comprehension_returns_witness :
  exists data,
    GenerateViz.comprehension GenerateViz.decimal_int GenerateViz.decimal_float
      (GenerateViz.read 0
         (GenerateViz.CsvRecord ["hour"; "estimate"; "std_error"] 1
          :: [GenerateViz.CsvRecord ["3"; "-10"; "1"] 1;
              GenerateViz.CsvRecord ["4"; "10.5"; "2"] 1])) tt =
      (Returned data, tt)
    /\ length data =
       length [GenerateViz.CsvRecord ["3"; "-10"; "1"] 1;
               GenerateViz.CsvRecord ["4"; "10.5"; "2"] 1]
    /\ ([GenerateViz.CsvRecord ["3"; "-10"; "1"] 1;
         GenerateViz.CsvRecord ["4"; "10.5"; "2"] 1] = [] -> data = []).
Proof.
  apply (comprehension_returns GenerateViz.decimal_int
           GenerateViz.decimal_float unit tt
           (GenerateViz.CsvRecord ["hour"; "estimate"; "std_error"] 1)
           [GenerateViz.CsvRecord ["3"; "-10"; "1"] 1;
            GenerateViz.CsvRecord ["4"; "10.5"; "2"] 1]).
  - reflexivity.
  - repeat constructor.
  - repeat constructor.
    + exists 3%Z, (-10)%float, 1%float. exists "3", "-10", "1".
      repeat split; vm_compute; reflexivity.
    + exists 4%Z, 10.5%float, 2%float. exists "4", "10.5", "2".
      repeat split; vm_compute; reflexivity.
Defined.

Lemma comprehension_long_header_witness :
  exists e,
    GenerateViz.comprehension GenerateViz.decimal_int GenerateViz.decimal_float
      (GenerateViz.read 0
         (GenerateViz.CsvRecord
            ["hour"; "estimate";
             ("std" ++ GenerateVizScript.nl ++ "error")%string] 2
          :: [GenerateViz.CsvRecord ["3"; "10"; "1"] 1])) tt =
    (Raised e, tt).
Proof.
  apply (comprehension_long_header GenerateViz.decimal_int
           GenerateViz.decimal_float unit tt
           (GenerateViz.CsvRecord
            ["hour"; "estimate";
             ("std" ++ GenerateVizScript.nl ++ "error")%string] 2)
           [GenerateViz.CsvRecord ["3"; "10"; "1"] 1]).
  - simpl. lia.
  - intros (h & e & s & c0 & c1 & c2 & H0 & _ & _ & Hh & _).
    injection H0 as <-. vm_compute in Hh. discriminate Hh.
Defined.

Section GenerateVizOutput.

Import GenerateViz GenerateVizScript.

Variable int_of_string : string -> option Z.
Variable float_of_string : string -> option PrimFloat.float.
Variable ToJSon : list usage -> string.
Variables USAGE_BY_HOUR_CSV_FILE VIZ_HTML_FILE : string.

Local Abbreviation comprehension :=
  (comprehension int_of_string float_of_string).
Local Abbreviation buildUsageByHourJs :=
  (buildUsageByHourJs int_of_string float_of_string ToJSon).
Local Abbreviation generateViz :=
  (generateViz int_of_string float_of_string ToJSon
     USAGE_BY_HOUR_CSV_FILE VIZ_HTML_FILE).

Lemma append_empty_r (s : string) : (s ++ EmptyString)%string = s.
Proof.
  induction s as [|c s IH]; [reflexivity|].
  change (String c (s ++ EmptyString)%string = String c s). now rewrite IH.
Qed.

Lemma append_assoc (a b c : string) :
  ((a ++ b) ++ c)%string = (a ++ (b ++ c))%string.
Proof.
  induction a as [|x a IH]; [reflexivity|].
  change (String x ((a ++ b) ++ c)%string = String x (a ++ (b ++ c))%string).
  now rewrite IH.
Qed.

(** The script, by what [buildUsageByHourJs] returns. *)
Lemma generateViz_steps (csvfile : option (list csv_record)) (w : world) :
  generateViz csvfile w =
  match buildUsageByHourJs USAGE_BY_HOUR_CSV_FILE csvfile
          (printed w ++ ["Generating visualization..."]) with
  | (Returned (Some js), out) =>
      (Returned tt,
       World (out ++ ["View the vizualization in your browser:";
                      ("file://" ++ VIZ_HTML_FILE)%string])
             (Some (generated_by ++ js ++ nl ++ nl)%string))
  | (Returned None, out) => (Returned tt, World out (output_js w))
  | (Raised e, out) => (Raised e, World out (output_js w))
  end.
Proof.
  unfold GenerateVizScript.generateViz, bind, print, printing. simpl.
  destruct (buildUsageByHourJs _ _ _) as [[[js|]|e] out]; simpl;
    [|reflexivity..].
  unfold open_output, write, print, ret. simpl.
  rewrite append_empty_r, <- app_assoc. reflexivity.
Qed.

(** X10: [generateViz] rewrites the output file only when the csv file
    exists and the comprehension over it returns; the file then holds the
    banner, the table and two line feeds, and nothing of what it held
    before. When the csv file is missing the script says so and returns,
    and when a row fails it raises: in both cases the output file is left
    as it was. *)
Theorem generateViz_output_file (csvfile : option (list csv_record))
    (w : world) :
  match csvfile with
  | None =>
      generateViz None w =
      (Returned tt,
       World (printed w ++ ["Generating visualization...";
                            ("File not found: " ++ USAGE_BY_HOUR_CSV_FILE)%string])
             (output_js w))
  | Some file =>
      match fst (comprehension (read 0 file)
                   (printed w ++ ["Generating visualization..."])) with
      | Returned data =>
          generateViz (Some file) w =
          (Returned tt,
           World (printed w ++ ["Generating visualization...";
                                "View the vizualization in your browser:";
                                ("file://" ++ VIZ_HTML_FILE)%string])
                 (Some (generated_by
                        ++ buildDataTableJs ToJSon data USAGE_BY_HOUR_JS_VAR_NAME
                        ++ nl ++ nl)%string))
      | Raised e =>
          generateViz (Some file) w =
          (Raised e,
           World (printed w ++ ["Generating visualization..."]) (output_js w))
      end
  end.
Proof.
  destruct csvfile as [file|]; rewrite generateViz_steps.
  - pose proof (comprehension_same_world int_of_string float_of_string _
                  (read 0 file)
                  (printed w ++ ["Generating visualization..."])) as Hw.
    rewrite buildUsageByHourJs_data.
    destruct (comprehension (read 0 file) _) as [[data|e] out]; simpl in Hw;
      subst out; simpl.
    + rewrite <- app_assoc. reflexivity.
    + reflexivity.
  - simpl. rewrite <- app_assoc. reflexivity.
Qed.

End GenerateVizOutput.

(** ** visualization/generate_data_js.py *)

Section GenerateDataJsFacts.

Import GenerateDataJs.

Variable int_of_string : string -> option Z.
Variable ToJSon : list module_count -> string.

Local Abbreviation dict_of_row := (dict_of_row int_of_string).
Local Abbreviation comprehension := (comprehension int_of_string).
Local Abbreviation reads_as := (reads_as int_of_string).
Local Abbreviation main := (main int_of_string ToJSon).

Lemma dict_of_row_same_world W row (w : W) : snd (dict_of_row row w) = w.
Proof.
  revert w. unfold GenerateDataJs.dict_of_row.
  repeat (apply bind_same_world;
          [first [apply index_same_world | apply int_same_world] | intros ?]).
  reflexivity.
Qed.

Lemma data_comprehension_same_world W rows (w : W) :
  snd (comprehension rows w) = w.
Proof.
  revert w. induction rows as [|row rows IH]; intros w; [reflexivity|].
  simpl. revert w. apply bind_same_world; [apply dict_of_row_same_world|].
  intros d. apply bind_same_world; [apply IH | reflexivity].
Qed.

Lemma dict_of_row_returned W (w w' : W) row d :
  dict_of_row row w = (Returned d, w') ->
  w' = w /\ reads_as row (module d) (count d).
Proof.
  intros H. unfold GenerateDataJs.dict_of_row in H.
  step_returned H. apply index_returned in Ha as [-> H0].
  step_returned H. apply index_returned in Ha as [-> H1].
  step_returned H. apply int_returned in Ha as [-> Hn].
  injection H as <- <-. split; [reflexivity|]. split; [exact H0|]. eauto.
Qed.

Lemma dict_of_row_reads W (w : W) row m n :
  reads_as row m n -> dict_of_row row w = (Returned (ModuleCount m n), w).
Proof.
  intros (H0 & c1 & H1 & Hn). unfold GenerateDataJs.dict_of_row.
  rewrite (bind_returned _ _ _ _ _ (index_at W w row 0 m H0)).
  rewrite (bind_returned _ _ _ _ _ (index_at W w row 1 c1 H1)).
  rewrite (bind_returned _ _ _ _ _ (int_anywhere _ c1 n Hn W w)).
  reflexivity.
Qed.

(** A row with fewer than two cells: [row[0]] or [row[1]] is out of
    range. *)
Lemma dict_of_row_short W (w : W) row :
  length row < 2 -> dict_of_row row w = (Raised IndexError, w).
Proof.
  intros Hlen. destruct row as [|c0 [|c1 row]]; simpl in Hlen; [| |lia];
    reflexivity.
Qed.

Lemma data_comprehension_rows W rows :
  forall (w w' : W) data,
    comprehension rows w = (Returned data, w') ->
    Forall2 (fun row d => reads_as row (module d) (count d)) rows data.
Proof.
  induction rows as [|row rows IH]; intros w w' data H; simpl in H.
  - injection H as <- _. constructor.
  - step_returned H. apply dict_of_row_returned in Ha as [-> Hd].
    step_returned H. apply IH in Ha. injection H as <- _.
    constructor; assumption.
Qed.

Lemma data_comprehension_reads W (w : W) rows :
  Forall (fun row => exists m n, reads_as row m n) rows ->
  exists data, comprehension rows w = (Returned data, w).
Proof.
  induction 1 as [|row rows (m & n & Hrow) _ (data & IH)].
  - now exists [].
  - eexists. simpl.
    rewrite (bind_returned _ _ _ _ _ (dict_of_row_reads W w row m n Hrow)).
    rewrite (bind_returned _ _ _ _ _ IH). reflexivity.
Qed.

(** The script, by what the comprehension returns. *)
Lemma main_steps rows (data_js : option string) :
  main rows data_js =
  match fst (comprehension rows data_js) with
  | Returned data =>
      (Returned tt,
       Some (generated_by
             ++ "var module_usage_data=" ++ ToJSon data ++ ";")%string)
  | Raised e => (Raised e, data_js)
  end.
Proof.
  pose proof (data_comprehension_same_world _ rows data_js) as Hw.
  unfold GenerateDataJs.main, bind at 1.
  destruct (comprehension rows data_js) as [[data|e] w']; simpl in Hw; subst w';
    reflexivity.
Qed.

(** X11: every row the reader yields, the first one included (no header
    is skipped), becomes one dictionary, in order, holding the first cell
    as module and the second cell read as an integer as count. *)
Theorem data_js_one_dict_per_row W (w w' : W) (rows : list (list string))
    (data : list module_count) :
  comprehension rows w = (Returned data, w') ->
  length data = length rows
  /\ Forall2 (fun row d => reads_as row (module d) (count d)) rows data.
Proof.
  intros H. apply data_comprehension_rows in H.
  split; [symmetry; eapply Forall2_length, H | exact H].
Qed.

(** X12: [main] replaces the content of data.js by the banner and the
    assignment of the rendered table when, and only when, the
    comprehension over all rows returns, with [int] reading the cells as
    Python does; when a row fails, [main] raises before data.js is
    opened, and the file is left as it was. *)
Theorem data_js_main_writes (rows : list (list string))
    (data_js : option string) :
  match fst (comprehension rows data_js) with
  | Returned data =>
      main rows data_js =
      (Returned tt,
       Some (generated_by
             ++ "var module_usage_data=" ++ ToJSon data ++ ";")%string)
  | Raised e => main rows data_js = (Raised e, data_js)
  end.
Proof.
  rewrite main_steps. destruct (fst (comprehension rows data_js)); reflexivity.
Qed.

(** X13: a row with fewer than two cells (a blank line of the csv file
    gives a row with none) after rows that read well makes [main] raise
    [IndexError]; data.js is not touched, whatever the rows after it. *)
Theorem data_js_short_row (good : list (list string)) (short : list string)
    (rest : list (list string)) (data_js : option string) :
  Forall (fun row => exists m n, reads_as row m n) good ->
  length short < 2 ->
  main (good ++ short :: rest) data_js = (Raised IndexError, data_js).
Proof.
  intros Hgood Hshort. rewrite main_steps.
  assert (H : fst (comprehension (good ++ short :: rest) data_js) =
              Raised IndexError).
  { clear -Hgood Hshort. induction Hgood as [|row good (m & n & Hrow) _ IH].
    - simpl. unfold bind at 1. now rewrite dict_of_row_short.
    - simpl.
      rewrite (bind_returned _ _ _ _ _
                 (dict_of_row_reads _ data_js row m n Hrow)).
      unfold bind at 1.
      destruct (comprehension (good ++ short :: rest) data_js) as [[ds|e] w'];
        simpl in IH; [discriminate IH | now rewrite IH]. }
  now rewrite H.
Qed.

End GenerateDataJsFacts.

Lemma data_js_one_dict_per_row_witness :
  length [GenerateDataJs.ModuleCount "camera" 12;
          GenerateDataJs.ModuleCount "settings" 7] =
  length [["camera"; " 12"]; ["settings"; "7"; "extra"]]
  /\ Forall2 (fun row d =>
               GenerateDataJs.reads_as GenerateViz.decimal_int row
                                       (GenerateDataJs.module d)
                                       (GenerateDataJs.count d))
       [["camera"; " 12"]; ["settings"; "7"; "extra"]]
       [GenerateDataJs.ModuleCount "camera" 12;
        GenerateDataJs.ModuleCount "settings" 7].
Proof.
  apply (data_js_one_dict_per_row GenerateViz.decimal_int unit tt tt
           [["camera"; " 12"]; ["settings"; "7"; "extra"]]
           [GenerateDataJs.ModuleCount "camera" 12;
            GenerateDataJs.ModuleCount "settings" 7]).
  vm_compute. reflexivity.
Defined.

Lemma data_js_short_row_witness :
  GenerateDataJs.main GenerateViz.decimal_int (fun data => "{}")
    ([["camera"; "12"]] ++ [] :: [["settings"; "7"]]) (Some "old") =
  (Raised IndexError, Some "old").
Proof.
  apply (data_js_short_row GenerateViz.decimal_int (fun data => "{}")
           [["camera"; "12"]] []
           [["settings"; "7"]] (Some "old")).
  - repeat constructor. exists "camera", 12%Z.
    split; [reflexivity|]. exists "12". split; vm_compute; reflexivity.
  - simpl. lia.
Defined.

(** ** tools/container_util.py: token replacement, deployment files and
       the registry *)

Section StringReplaceFacts.

Import ContainerUtilFunctions.

Lemma prefix_app (p b : string) : String.prefix p (p ++ b) = true.
Proof.
  induction p as [|c p IH]; [now destruct b|].
  change (String c p ++ b)%string with (String c (p ++ b)%string). simpl.
  destruct (ascii_dec c c) as [_|Hne]; [exact IH | now destruct Hne].
Qed.

Lemma prefix_true (p s : string) :
  String.prefix p s = true -> exists b, s = (p ++ b)%string.
Proof.
  revert s. induction p as [|c p IH]; intros s H.
  - now exists s.
  - destruct s as [|x s]; [discriminate H|]. simpl in H.
    destruct (ascii_dec c x) as [<-|Hne]; [|discriminate H].
    destruct (IH s H) as [b ->]. now exists b.
Qed.

Lemma prefix_other_head (c x : ascii) (p s : string) :
  x <> c -> String.prefix (String c p) (String x s) = false.
Proof.
  intros Hne. simpl. destruct (ascii_dec c x) as [->|_];
    [now destruct Hne | reflexivity].
Qed.

(** Skipping as many characters as [a] has jumps over [a]. *)
Lemma replace_skipping_over (old new a b : string) :
  replace_skipping old new (String.length a) (a ++ b) =
  match b with
  | EmptyString => EmptyString
  | String _ _ => replace_skipping old new 0 b
  end.
Proof.
  induction a as [|x a IH].
  - now destruct b.
  - change (String x a ++ b)%string with (String x (a ++ b)%string).
    simpl. exact IH.
Qed.

Lemma replace_skipping_over_0 (old new a b : string) :
  replace_skipping old new (String.length a) (a ++ b) =
  replace_skipping old new 0 b.
Proof. rewrite replace_skipping_over. now destruct b. Qed.

Lemma occurs_empty (s : string) : occurs EmptyString s.
Proof. now exists EmptyString, s. Qed.

Lemma occurs_cons (old : string) (c : ascii) (s : string) :
  occurs old s -> occurs old (String c s).
Proof. intros (a & b & ->). now exists (String c a), b. Qed.

Lemma occursb_unfold (old s : string) :
  occursb old s =
  String.prefix old s
  || match s with
     | EmptyString => false
     | String _ rest => occursb old rest
     end.
Proof. destruct s; reflexivity. Qed.

Lemma occursb_complete (old s : string) :
  occurs old s -> occursb old s = true.
Proof.
  intros (a & b & ->). induction a as [|x a IH].
  - change (EmptyString ++ old ++ b)%string with (old ++ b)%string.
    now rewrite occursb_unfold, prefix_app.
  - change (String x a ++ old ++ b)%string
      with (String x (a ++ old ++ b)%string).
    rewrite occursb_unfold, IH. apply orb_true_r.
Qed.

Lemma not_occurs (old s : string) : occursb old s = false -> ~ occurs old s.
Proof. intros Hb Ho. apply occursb_complete in Ho. congruence. Qed.

Lemma replace_skipping_cons (old new : string) (c : ascii) (rest : string) :
  replace_skipping old new 0 (String c rest) =
  if String.prefix old (String c rest)
  then (new ++ replace_skipping old new (String.length old - 1) rest)%string
  else String c (replace_skipping old new 0 rest).
Proof. reflexivity. Qed.

Lemma replace_skipping_absent (old new s : string) :
  ~ occurs old s -> replace_skipping old new 0 s = s.
Proof.
  induction s as [|c s IH]; intros Hno; [reflexivity|].
  rewrite replace_skipping_cons.
  destruct (String.prefix old (String c s)) eqn:Hp.
  - destruct Hno. apply prefix_true in Hp as [b ->]. now exists EmptyString, b.
  - rewrite IH; [reflexivity|]. intros Hs. apply Hno. now apply occurs_cons.
Qed.

(** A string in which [old] does not occur is returned as it is. *)
Lemma replace_absent (old new s : string) :
  ~ occurs old s -> replace old new s = s.
Proof.
  intros Hno. destruct old as [|c old].
  - destruct Hno. apply occurs_empty.
  - now apply replace_skipping_absent.
Qed.

Lemma replace_first (c : ascii) (t new a b : string) :
  ~ occurs (String c EmptyString) a ->
  replace (String c t) new (a ++ String c t ++ b) =
  (a ++ new ++ replace (String c t) new b)%string.
Proof.
  unfold replace. induction a as [|x a IH]; intros Hno.
  - change (EmptyString ++ String c t ++ b)%string
      with (String c (t ++ b)%string).
    rewrite replace_skipping_cons.
    change (String c (t ++ b)%string) with (String c t ++ b)%string at 1.
    rewrite prefix_app. simpl String.length.
    replace (S (String.length t) - 1) with (String.length t) by lia.
    now rewrite replace_skipping_over_0.
  - change (String x a ++ String c t ++ b)%string
      with (String x (a ++ String c t ++ b)%string).
    assert (Hx : x <> c).
    { intros ->. apply Hno. now exists EmptyString, a. }
    rewrite replace_skipping_cons, (prefix_other_head c x t _ Hx).
    rewrite IH; [reflexivity|].
    intros Ha. apply Hno. now apply occurs_cons.
Qed.

(** X14: a token is substituted where it first can occur: when the text
    before it does not hold the first character of the token (for the
    tokens of the templates, a dollar sign), that text is kept, the value
    takes the place of the token, and the replacement goes on in the text
    after it. *)
Theorem replace_substitutes_token (c : ascii) (t value before after : string) :
  ~ occurs (String c EmptyString) before ->
  replace (String c t) value (before ++ String c t ++ after) =
  (before ++ value ++ replace (String c t) value after)%string.
Proof. apply replace_first. Qed.

(** X15: a line in which none of the tokens occurs goes through the
    replacements unchanged, whatever the values and the order of the
    tokens. *)
Theorem replace_tokens_without_token
    (token_replacements : list (string * string)) (line : string) :
  Forall (fun item => ~ occurs (fst item) line) token_replacements ->
  replace_tokens token_replacements line = line.
Proof.
  induction 1 as [|[token value] rest Hno _ IH]; [reflexivity|].
  simpl. rewrite (replace_absent token value line Hno). exact IH.
Qed.

End StringReplaceFacts.

Lemma replace_substitutes_token_witness :
  ContainerUtilFunctions.replace (String "$" "$IMAGE$$") "us.gcr.io/p/shuffler"
    ("  image: " ++ String "$" "$IMAGE$$" ++ " # $$IMAGE$$") =
  ("  image: " ++ "us.gcr.io/p/shuffler"
   ++ ContainerUtilFunctions.replace (String "$" "$IMAGE$$")
        "us.gcr.io/p/shuffler" " # $$IMAGE$$")%string.
Proof.
  apply (replace_substitutes_token "$" "$IMAGE$$" "us.gcr.io/p/shuffler"
           "  image: " " # $$IMAGE$$").
  apply not_occurs. reflexivity.
Defined.

Lemma replace_tokens_without_token_witness :
  ContainerUtilFunctions.replace_tokens
    [("$$SHUFFLER_IMAGE_URI$$", "us.gcr.io/p/shuffler");
     ("$$GCE_PERSISTENT_DISK_NAME$$", "disk-1")]
    "kind: Deployment" =
  "kind: Deployment".
Proof.
  apply (replace_tokens_without_token
           [("$$SHUFFLER_IMAGE_URI$$", "us.gcr.io/p/shuffler");
            ("$$GCE_PERSISTENT_DISK_NAME$$", "disk-1")]
           "kind: Deployment").
  repeat constructor; apply not_occurs; reflexivity.
Defined.

Section ContainerUtilFunctionsFacts.

Import StableConfigParser ContainerUtilFunctions.

Variable os_run : nat -> list string -> process.
Variable dirname : string -> string.
Variable resolve : string -> string.
Variable makedirs_fails : string -> bool.
Variable makedirs_creates : string -> gset string.
Variable open_fails : string -> bool.
Variable write_fails : string -> nat -> bool.
Variable close_fails : string -> bool.
Variable input_lines : string -> list string * option exn.

Local Abbreviation check_call := (check_call os_run).
Local Abbreviation exists_ := (exists_ resolve).
Local Abbreviation makedirs :=
  (makedirs resolve makedirs_fails makedirs_creates).
Local Abbreviation _ensure_dir :=
  (_ensure_dir resolve makedirs_fails makedirs_creates).
Local Abbreviation open_for_writing := (open_for_writing resolve open_fails).
Local Abbreviation closing := (@closing close_fails).
Local Abbreviation for_input := (for_input input_lines).
Local Abbreviation write_line := (write_line resolve write_fails).
Local Abbreviation _replace_tokens_in_template :=
  (_replace_tokens_in_template dirname resolve makedirs_fails
     makedirs_creates open_fails write_fails close_fails input_lines).
Local Abbreviation _start_gke_service :=
  (_start_gke_service os_run dirname resolve makedirs_fails
     makedirs_creates open_fails write_fails close_fails input_lines).
Local Abbreviation _push_to_container_registry :=
  (_push_to_container_registry os_run).

(** The command is logged however it ends. *)
Lemma check_call_outcome (cmd : list string) (w : world) :
  check_call cmd w =
  (outcome_of (os_run (length (commands w)) cmd),
   World (commands w ++ [cmd]) (dirs w) (files w)).
Proof.
  unfold ContainerUtilFunctions.check_call, outcome_of.
  destruct (os_run (length (commands w)) cmd) as [|rc out]; [reflexivity|].
  destruct (Z.eqb rc 0); reflexivity.
Qed.

Lemma outcome_of_returned (p : process) :
  outcome_of p = Returned tt <-> exists out, p = Exited 0 out.
Proof.
  destruct p as [|rc out]; simpl.
  - split; [discriminate | intros [out H]; discriminate H].
  - destruct (Z.eqb_spec rc 0) as [->|Hne].
    + split; [intros _; now exists out | reflexivity].
    + split; [discriminate | intros [out' [= H _]]; contradiction].
Qed.

(** A directory that exists is left alone; one that does not is made,
    unless its path is empty or the file system refuses. *)
Lemma ensure_dir_returns (dir_path : string) (w : world) :
  exists_ dir_path w = true
  \/ (is_empty dir_path = false /\ makedirs_fails dir_path = false) ->
  exists ds,
    _ensure_dir dir_path w = (Returned tt, World (commands w) ds (files w))
    /\ dirs w ⊆ ds
    /\ exists_ dir_path (World (commands w) ds (files w)) = true.
Proof.
  intros H. unfold ContainerUtilFunctions._ensure_dir.
  destruct (exists_ dir_path w) eqn:Hex.
  - exists (dirs w). destruct w as [cs ds fs]. simpl. auto.
  - destruct H as [H|[Hne Hok]]; [discriminate H|].
    unfold ContainerUtilFunctions.makedirs. rewrite Hne, Hok. simpl.
    eexists. split; [reflexivity|]. split; [set_solver|].
    unfold ContainerUtilFunctions.exists_. rewrite Hne. simpl.
    apply orb_true_iff. left. apply bool_decide_eq_true. set_solver.
Qed.

(** Neither [_ensure_dir] nor the loop starts a command or touches a
    file other than the one it writes. *)
Lemma ensure_dir_keeps (dir_path : string) (w : world) :
  commands (snd (_ensure_dir dir_path w)) = commands w
  /\ files (snd (_ensure_dir dir_path w)) = files w.
Proof.
  unfold ContainerUtilFunctions._ensure_dir, ContainerUtilFunctions.makedirs.
  destruct (exists_ dir_path w); [split; reflexivity|].
  destruct (is_empty dir_path || makedirs_fails dir_path); split; reflexivity.
Qed.

Lemma write_lines_commands (out_file : string) (f : string -> string)
    (lines : list string) :
  forall w,
    commands (snd (for_each lines (fun line => write_line out_file (f line)) w))
    = commands w.
Proof.
  induction lines as [|line lines IH]; intros w; [reflexivity|].
  simpl. unfold bind at 1, ContainerUtilFunctions.write_line at 1.
  destruct (write_fails out_file _); [reflexivity|]. now rewrite IH.
Qed.

(** Writing the lines of a loop one after the other to an open file. *)
Lemma write_lines (out_file : string) (f : string -> string)
    (lines : list string) :
  forall cs ds fs written,
    fs !! resolve out_file = Some written ->
    (forall n, n < length lines ->
               write_fails out_file (length written + n) = false) ->
    for_each lines (fun line => write_line out_file (f line)) (World cs ds fs) =
    (Returned tt,
     World cs ds (<[resolve out_file := written ++ (f <$> lines)]> fs)).
Proof.
  induction lines as [|line lines IH]; intros cs ds fs written Hfile Hok.
  - simpl. unfold ret. rewrite app_nil_r, insert_id by exact Hfile. reflexivity.
  - simpl. unfold bind at 1, ContainerUtilFunctions.write_line at 1. simpl.
    rewrite Hfile. simpl.
    rewrite <- (Nat.add_0_r (length written)), Hok by (simpl; lia).
    rewrite (IH cs ds _ (written ++ [f line])).
    + rewrite insert_insert_eq, <- app_assoc. reflexivity.
    + apply lookup_insert_eq.
    + intros n Hn. rewrite length_app. simpl.
      rewrite <- Nat.add_assoc. apply Hok. simpl. lia.
Qed.

Lemma replace_tokens_in_template_commands (template_file out_file : string)
    (token_replacements : list (string * string)) (w : world) :
  commands (snd (_replace_tokens_in_template template_file out_file
                   token_replacements w)) = commands w.
Proof.
  unfold ContainerUtilFunctions._replace_tokens_in_template.
  unfold bind at 1.
  destruct (ensure_dir_keeps (dirname out_file) w) as [Hc _].
  destruct (_ensure_dir (dirname out_file) w) as [[[]|e] w1]; simpl in Hc;
    [|exact Hc].
  unfold bind at 1, ContainerUtilFunctions.open_for_writing at 1.
  destruct (open_fails out_file); [exact Hc|].
  unfold ContainerUtilFunctions.closing, ContainerUtilFunctions.for_input.
  destruct (input_lines template_file) as [template failure].
  pose proof (write_lines_commands out_file
                (replace_tokens token_replacements) template
                (World (commands w1) (dirs w1)
                       (<[resolve out_file := []]> (files w1)))) as Hw.
  unfold bind at 1.
  destruct (for_each template _ _) as [[[]|e] w2]; simpl in Hw.
  - destruct failure as [e|]; simpl;
      destruct (close_fails out_file); simpl; congruence.
  - destruct (close_fails out_file); simpl; congruence.
Qed.



(** X18: [_push_to_container_registry] tags the image with its registry
    URI and then pushes that same tag. The push is started only if the
    tagging exited with status 0, and the function returns exactly when
    both commands exit with status 0. *)
Theorem push_only_after_tag
    (cloud_project_prefix cloud_project_name image_name : string) (w : world) :
  let registry_tag :=
    _image_registry_uri cloud_project_prefix cloud_project_name image_name in
  let tag := ["docker"; "tag"; image_name; registry_tag] in
  let push := ["gcloud"; "docker"; "--"; "push"; registry_tag] in
  let r := _push_to_container_registry cloud_project_prefix cloud_project_name
             image_name w in
  (fst r = Returned tt <->
   (exists out, os_run (length (commands w)) tag = Exited 0 out)
   /\ (exists out, os_run (S (length (commands w))) push = Exited 0 out))
  /\ ((exists out, os_run (length (commands w)) tag = Exited 0 out) ->
      commands (snd r) = commands w ++ [tag; push])
  /\ (~ (exists out, os_run (length (commands w)) tag = Exited 0 out) ->
      commands (snd r) = commands w ++ [tag]
      /\ fst r = outcome_of (os_run (length (commands w)) tag)).
Proof.
  intros registry_tag tag push r. subst r.
  unfold ContainerUtilFunctions._push_to_container_registry, bind.
  fold registry_tag. fold tag. fold push.
  rewrite check_call_outcome.
  destruct (outcome_of (os_run (length (commands w)) tag)) as [[]|e] eqn:Htag.
  - rewrite check_call_outcome. simpl.
    rewrite length_app, Nat.add_1_r, <- app_assoc. simpl.
    apply outcome_of_returned in Htag.
    split; [|split].
    + rewrite outcome_of_returned. tauto.
    + reflexivity.
    + intros Hno. contradiction.
  - simpl. split; [|split].
    + split; [discriminate|]. intros [Hok _].
      apply outcome_of_returned in Hok. congruence.
    + intros Hok. apply outcome_of_returned in Hok. congruence.
    + intros _. split; reflexivity.
Qed.

End ContainerUtilFunctionsFacts.

